(** * Transfer-and-publish pipeline of [src/index.js]

    A shallow embedding of the two stateful routes of the server
    ([GET /auth/callback] and [POST /upload]) and of the helper
    [downloadFromR2ToTemp], followed by the properties of the upload
    pipeline: which external calls a run performs, in which order, what it
    answers, and which resources it leaves behind.

    The server talks to four outside parties (MongoDB, the source URL, the
    R2 bucket, the YouTube API) and to the local file system.  Their
    state is kept in a [World]; what they answer is chosen by an [Env].
    Every call the handlers make is recorded in the world's [trace].
    A run ends when its handler returns or rejects; the [fs.unlink]
    calls it made are then still in flight, and [settle] completes
    them. *)

From Stdlib Require Import ZArith String Ascii List.
From stdpp Require Import base gmap sets list strings pretty.

Local Open Scope string_scope.
Local Open Scope Z_scope.

(** ** JavaScript values the handlers look at *)

(** An error whose payload serialises: [err.message] and, when the
    error carries a parsed response, [err.response.data] as the text of
    that payload (gaxios errors). *)
Record JsError := mkError {
  message : string;
  response_data : option string;
}.

Definition Error (msg : string) : JsError :=
  {| message := msg; response_data := None |}.

(** A thrown value.  Besides the errors above there is the axios error
    for an answer with an error status: the request is made with
    [responseType: 'stream'], so its [err.response.data] is the response
    stream, which [JSON.stringify] refuses. *)
Inductive Thrown :=
| Err (e : JsError)
| StreamResponseError (message : string).

Coercion Err : JsError >-> Thrown.

(** Query and body fields are strings when present; [None] is
    [undefined].  [!v] is true for [undefined] and for the empty string. *)
Definition js_not (v : option string) : bool :=
  match v with
  | None => true
  | Some s => bool_decide (s = "")
  end.

Definition js_truthy (v : option string) : bool := negb (js_not v).

(** The string behind a value already known to be truthy. *)
Definition str (v : option string) : string := default "" v.

(** A JSON object: its fields in the order they are written. *)
Definition Json := list (string * string).

(** *** [parseInt(s, 10)] *)

(** Header values are Latin-1 code units; these are the ones
    [parseInt] skips in front of the number. *)
Definition is_js_space (c : ascii) : bool :=
  let n := nat_of_ascii c in
  bool_decide (n = 9 ∨ n = 10 ∨ n = 11 ∨ n = 12 ∨ n = 13 ∨ n = 32 ∨ n = 160)%nat.

Fixpoint skip_space (s : string) : string :=
  match s with
  | String c r => if is_js_space c then skip_space r else s
  | EmptyString => s
  end.

Definition digit_of (c : ascii) : option Z :=
  let n := Z.of_nat (nat_of_ascii c) in
  if bool_decide (48 <= n <= 57) then Some (n - 48) else None.

(** Longest prefix of decimal digits, read left to right; [seen] tells
    whether at least one digit was consumed. *)
Fixpoint read_digits (s : string) (acc : Z) (seen : bool) : option Z :=
  match s with
  | String c r =>
      match digit_of c with
      | Some d => read_digits r (10 * acc + d) true
      | None => if seen then Some acc else None
      end
  | EmptyString => if seen then Some acc else None
  end.

(** The Number nearest to the integer [z]: [z] itself up to 2^53, beyond
    that the nearest multiple of the spacing of doubles at that
    magnitude, ties going to the even significand.  Infinity is written
    as 2^1024, the first power of two that is no finite double. *)
Definition to_double (z : Z) : Z :=
  let a := Z.abs z in
  if a <? 2 ^ 53 then z
  else
    let e := Z.log2 a - 52 in
    let q := a / 2 ^ e in
    let r := a mod 2 ^ e in
    let half := 2 ^ (e - 1) in
    let q' := if (half <? r) || ((r =? half) && Z.odd q) then q + 1 else q in
    Z.sgn z * Z.min (q' * 2 ^ e) (2 ^ 1024).

(** [None] is [NaN]; [Some z] is the Number whose value is [z].  The
    sign of zero is not represented. *)
Definition parseInt (s : string) : option Z :=
  to_double <$>
    match skip_space s with
    | String "-" r => Z.opp <$> read_digits r 0 false
    | String "+" r => read_digits r 0 false
    | t => read_digits t 0 false
    end.

(** *** The [content-length] of a response *)

Definition is_digit (c : ascii) : bool :=
  match digit_of c with Some _ => true | None => false end.

Fixpoint all_digits (s : string) : bool :=
  match s with
  | String c r => is_digit c && all_digits r
  | EmptyString => true
  end.

(** What Node's HTTP parser lets through as [Content-Length]: no header,
    or one or more decimal digits.  Any other value makes the request
    fail before a response exists. *)
Definition content_length_ok (h : option string) : bool :=
  match h with
  | None => true
  | Some s => negb (bool_decide (s = "")) && all_digits s
  end.

(** ** Data of the routes *)

(** A document of the [tokens] collection, without its [sub] key. *)
Record TokenDoc := mkTokenDoc {
  email : option string;
  access_token : option string;
  refresh_token : option string;
  token_expiry : option Z;
}.

(** What [setCredentials] stores in an [OAuth2Client]. *)
Record Credentials := mkCredentials {
  cred_access_token : option string;
  cred_refresh_token : option string;
  cred_expiry_date : option Z;
}.

Definition no_credentials : Credentials :=
  {| cred_access_token := None; cred_refresh_token := None;
     cred_expiry_date := None |}.

(** The [tokens] object resolved by [oauth2Client.getToken]. *)
Record Tokens := mkTokens {
  tok_id_token : option string;
  tok_access_token : option string;
  tok_refresh_token : option string;
  tok_expiry_date : option Z;
}.

(** [ticket.getPayload()]. *)
Record Payload := mkPayload {
  payload_sub : string;
  payload_email : option string;
}.

(** The fields the handler destructures from [req.body]. *)
Record UploadBody := mkUploadBody {
  body_video_url : option string;
  body_title : option string;
  body_description : option string;
  body_tags : option (list string);
  body_category_id : option string;
  body_privacy_status : option string;
  body_publish_at : option string;
}.

(** [req.query.userId] and [req.body]: the object left by
    [express.json()], or [None] when no body was parsed and [req.body]
    is [undefined].  Scalar fields are strings; the arrays and nested
    objects the query parser can build for [userId] are not
    represented. *)
Record UploadRequest := mkUploadRequest {
  query_userId : option string;
  req_body : option UploadBody;
}.

(** The variables of [const { video_url, title, ... } = req.body], once
    that statement has run. *)
Definition video_url (req : UploadRequest) : option string :=
  req_body req ≫= body_video_url.
Definition title (req : UploadRequest) : option string :=
  req_body req ≫= body_title.
Definition description (req : UploadRequest) : option string :=
  req_body req ≫= body_description.
Definition tags (req : UploadRequest) : option (list string) :=
  req_body req ≫= body_tags.
Definition category_id (req : UploadRequest) : option string :=
  req_body req ≫= body_category_id.
Definition privacy_status (req : UploadRequest) : option string :=
  req_body req ≫= body_privacy_status.
Definition publish_at (req : UploadRequest) : option string :=
  req_body req ≫= body_publish_at.

(** The argument of [youtube.videos.insert]. *)
Record VideoInsert := mkVideoInsert {
  part : string;
  snippet_title : option string;
  snippet_description : option string;
  snippet_tags : option (list string);
  snippet_categoryId : option string;
  status_privacyStatus : option string;
  status_publishAt : option string;
  media_body : string;
}.

(** The part of an axios response the handler reads: the header as the
    HTTP parser delivered it. *)
Record AxiosResponse := mkAxiosResponse {
  headers_content_length : option string;
  content_length_wf : Is_true (content_length_ok headers_content_length);
}.

(** How [axios.get] rejects: without a response (transport failure,
    malformed answer), or with one whose status is an error. *)
Inductive AxiosError :=
| NoResponse (message : string)
| ErrorStatus (message : string).

Definition thrown_by_axios (e : AxiosError) : Thrown :=
  match e with
  | NoResponse msg => Err (Error msg)
  | ErrorStatus msg => StreamResponseError msg
  end.

(** The two callbacks handed to [fs.unlink]: [() => {}], and the one
    that logs the error under a label. *)
Inductive UnlinkCallback :=
| DiscardError
| LogError (label : string).

(** How [pipeline(Body, fs.createWriteStream(p))] ends: the copy is
    complete, or it breaks, having created the file or not. *)
Inductive PipeOutcome :=
| PipeDone
| PipeBroken (e : JsError) (partial : bool).

(** How [youtube.videos.insert] ends: the id of the created video or a
    rejection, and the credentials the OAuth client fetched with its
    refresh token on the way, if it did. *)
Record InsertOutcome := mkInsertOutcome {
  refreshed : option Credentials;
  insert_result : JsError + string;
}.

(** ** Calls recorded in the trace *)

Inductive Event :=
| EFindOne (sub : string)
| EUpdateOne (sub : string) (doc : TokenDoc)
| EGetToken (code : option string)
| EVerifyIdToken (idToken : option string)
| EAxiosGet (url : string)
| EPutObject (key : string) (contentLength : option Z)
| EGetObject (key : string)
| EPipeline (path : string)
| EUnlink (path : string)
| EVideosInsert (auth : Credentials) (params : VideoInsert)
| ETokensRefreshed (c : Credentials)
| EDeleteObject (key : string)
| EConsoleError (label : string) (e : Thrown)
| ERespond (status : Z) (body : Json).

Definition is_fetch (e : Event) : bool :=
  match e with EAxiosGet _ => true | _ => false end.
Definition is_stage (e : Event) : bool :=
  match e with EPutObject _ _ => true | _ => false end.
Definition is_publish (e : Event) : bool :=
  match e with EVideosInsert _ _ => true | _ => false end.
Definition is_store_write (e : Event) : bool :=
  match e with EUpdateOne _ _ => true | _ => false end.

(** ** The world and its environment *)

Record World := mkWorld {
  db : option (gmap string TokenDoc);   (* [let db;] and its collection *)
  oauth2Client : Credentials;           (* the process-wide client *)
  bucket : gset string;                 (* keys held by the R2 bucket *)
  files : gset string;                  (* paths present on disk *)
  unlinks : list (string * UnlinkCallback);  (* [fs.unlink] calls in flight *)
  trace : list Event;
}.

(** What the outside answers during one request.  A fault is the error
    a call rejects with; [None] lets the call act on the world. *)
Record Env := mkEnv {
  date_now : Z;                         (* [Date.now()] *)
  uuidv4 : string;                      (* [uuidv4()] *)
  os_tmpdir : string;                   (* [os.tmpdir()] *)
  mongo_fault : option JsError;
  axios_response : string -> AxiosError + AxiosResponse;
  s3_put_fault : string -> option JsError;
  s3_get_fault : string -> option JsError;
  pipeline_result : string -> PipeOutcome;
  videos_insert : Credentials -> VideoInsert -> InsertOutcome;
  s3_delete_fault : string -> option JsError;
  fs_unlink_fault : string -> option JsError;
  oauth_getToken : option string -> JsError + Tokens;
  oauth_verifyIdToken : option string -> JsError + Payload;
}.

Definition set_db (d : option (gmap string TokenDoc)) (w : World) : World :=
  {| db := d; oauth2Client := oauth2Client w; bucket := bucket w;
     files := files w; unlinks := unlinks w; trace := trace w |}.
Definition set_oauth2Client (c : Credentials) (w : World) : World :=
  {| db := db w; oauth2Client := c; bucket := bucket w;
     files := files w; unlinks := unlinks w; trace := trace w |}.
Definition set_bucket (b : gset string) (w : World) : World :=
  {| db := db w; oauth2Client := oauth2Client w; bucket := b;
     files := files w; unlinks := unlinks w; trace := trace w |}.
Definition set_files (f : gset string) (w : World) : World :=
  {| db := db w; oauth2Client := oauth2Client w; bucket := bucket w;
     files := f; unlinks := unlinks w; trace := trace w |}.
Definition set_unlinks (u : list (string * UnlinkCallback)) (w : World)
  : World :=
  {| db := db w; oauth2Client := oauth2Client w; bucket := bucket w;
     files := files w; unlinks := u; trace := trace w |}.
Definition log (e : Event) (w : World) : World :=
  {| db := db w; oauth2Client := oauth2Client w; bucket := bucket w;
     files := files w; unlinks := unlinks w; trace := trace w ++ [e] |}.

(** ** Computations that may throw *)

Inductive Completion (A : Type) :=
| Normal (a : A)
| Throw (e : Thrown).
Arguments Normal {A} a.
Arguments Throw {A} e.

Definition Run (A : Type) : Type := World -> Completion A * World.

Definition ret {A} (a : A) : Run A := fun w => (Normal a, w).
Definition throw {A} (e : Thrown) : Run A := fun w => (Throw e, w).
Definition bind {A B} (m : Run A) (k : A -> Run B) : Run B :=
  fun w =>
    match m w with
    | (Normal a, w1) => k a w1
    | (Throw e, w1) => (Throw e, w1)
    end.
Definition try_catch {A} (m : Run A) (handler : Thrown -> Run A) : Run A :=
  fun w =>
    match m w with
    | (Normal a, w1) => (Normal a, w1)
    | (Throw e, w1) => handler e w1
    end.
Definition emit (e : Event) : Run unit := fun w => (Normal tt, log e w).

Declare Scope run_scope.
Delimit Scope run_scope with run.
Notation "x <- m ; k" := (bind m (fun x => k))
  (at level 20, m at level 100, k at level 200, only parsing) : run_scope.
Notation "m ;; k" := (bind m (fun _ => k))
  (at level 100, k at level 200, only parsing, right associativity) : run_scope.
Local Open Scope run_scope.

(** ** The outside calls *)

Definition type_error_db : JsError :=
  Error "Cannot read properties of undefined (reading 'collection')".
Definition no_such_key : JsError := Error "The specified key does not exist.".
Definition enoent (path : string) : JsError :=
  Error ("ENOENT: no such file or directory, unlink '" ++ path ++ "'").

(** [db.collection('tokens')]: a [TypeError] while [db] is unassigned. *)
Definition db_collection : Run unit :=
  fun w =>
    match db w with
    | Some _ => (Normal tt, w)
    | None => (Throw type_error_db, w)
    end.

(** [users.findOne({ sub })]. *)
Definition findOne (env : Env) (sub : string) : Run (option TokenDoc) :=
  emit (EFindOne sub);;
  fun w =>
    match mongo_fault env with
    | Some e => (Throw e, w)
    | None => (Normal (db w ≫= (fun c : gmap string TokenDoc => c !! sub)), w)
    end.

(** [users.updateOne({ sub }, { $set: doc }, { upsert: true })]: the four
    fields of [doc] are all the fields a document has besides [sub]. *)
Definition updateOne_upsert (env : Env) (sub : string) (doc : TokenDoc)
  : Run unit :=
  emit (EUpdateOne sub doc);;
  fun w =>
    match mongo_fault env with
    | Some e => (Throw e, w)
    | None => (Normal tt, set_db (insert sub doc <$> db w) w)
    end.

(** [axios.get(url, { responseType: 'stream' })]. *)
Definition axios_get (env : Env) (url : string) : Run AxiosResponse :=
  emit (EAxiosGet url);;
  match axios_response env url with
  | inl e => throw (thrown_by_axios e)
  | inr r => ret r
  end.

(** [s3.send(new PutObjectCommand(...))]. *)
Definition s3_send_PutObject (env : Env) (key : string) (len : option Z)
  : Run unit :=
  emit (EPutObject key len);;
  match s3_put_fault env key with
  | Some e => throw e
  | None => fun w => (Normal tt, set_bucket ({[key]} ∪ bucket w) w)
  end.

(** [s3.send(new GetObjectCommand(...))]: rejected with the fault of
    the environment when there is one, and otherwise, for a key the
    bucket does not hold, with the error of the store. *)
Definition s3_send_GetObject (env : Env) (key : string) : Run unit :=
  emit (EGetObject key);;
  fun w =>
    match s3_get_fault env key with
    | Some e => (Throw e, w)
    | None =>
        if bool_decide (key ∈ bucket w) then (Normal tt, w)
        else (Throw no_such_key, w)
    end.

(** [s3.send(new DeleteObjectCommand(...))]; deleting a key the bucket
    does not hold is not an error. *)
Definition s3_send_DeleteObject (env : Env) (key : string) : Run unit :=
  emit (EDeleteObject key);;
  match s3_delete_fault env key with
  | Some e => throw e
  | None => fun w => (Normal tt, set_bucket (bucket w ∖ {[key]}) w)
  end.

(** [pipeline(Body, fs.createWriteStream(path))]. *)
Definition pipeline (env : Env) (path : string) : Run unit :=
  emit (EPipeline path);;
  fun w =>
    match pipeline_result env path with
    | PipeDone => (Normal tt, set_files ({[path]} ∪ files w) w)
    | PipeBroken e true => (Throw e, set_files ({[path]} ∪ files w) w)
    | PipeBroken e false => (Throw e, w)
    end.

(** [fs.unlink(path, callback)]: the call returns at once and the
    removal is left in flight; nothing has happened to the file yet. *)
Definition fs_unlink (path : string) (callback : UnlinkCallback) : Run unit :=
  emit (EUnlink path);;
  fun w => (Normal tt, set_unlinks (unlinks w ++ [(path, callback)]) w).

(** [youtube.videos.insert(params)] through the client [auth].  The
    client keeps the credentials it refreshed; they are returned next to
    the id. *)
Definition youtube_videos_insert (env : Env) (auth : Credentials)
    (params : VideoInsert) : Run (string * Credentials) :=
  emit (EVideosInsert auth params);;
  let out := videos_insert env auth params in
  auth' <- match refreshed out with
           | Some c => (emit (ETokensRefreshed c);; ret c)
           | None => ret auth
           end;
  match insert_result out with
  | inl e => throw e
  | inr id => ret (id, auth')
  end.

Definition console_error (label : string) (e : Thrown) : Run unit :=
  emit (EConsoleError label e).

Definition res_status_json (status : Z) (body : Json) : Run unit :=
  emit (ERespond status body).

Definition res_json (body : Json) : Run unit := res_status_json 200 body.

(** [path.join(dir, name)] for a [name] without separators. *)
Definition path_join (dir name : string) : string := dir ++ "/" ++ name.

(** ** [GET /auth/callback] *)

Definition oauth2Client_getToken (env : Env) (code : option string)
  : Run Tokens :=
  emit (EGetToken code);;
  match oauth_getToken env code with
  | inl e => throw e
  | inr t => ret t
  end.

Definition oauth2Client_setCredentials (t : Tokens) : Run unit :=
  fun w =>
    (Normal tt,
     set_oauth2Client
       {| cred_access_token := tok_access_token t;
          cred_refresh_token := tok_refresh_token t;
          cred_expiry_date := tok_expiry_date t |} w).

Definition oauth2Client_verifyIdToken (env : Env) (idToken : option string)
  : Run Payload :=
  emit (EVerifyIdToken idToken);;
  match oauth_verifyIdToken env idToken with
  | inl e => throw e
  | inr p => ret p
  end.

Definition auth_callback (env : Env) (code : option string) : Run unit :=
  try_catch
    (tokens <- oauth2Client_getToken env code;
     oauth2Client_setCredentials tokens;;
     payload <- oauth2Client_verifyIdToken env (tok_id_token tokens);
     let googleSub := payload_sub payload in
     let googleEmail := payload_email payload in
     db_collection;;
     updateOne_upsert env googleSub
       {| email := googleEmail;
          access_token := tok_access_token tokens;
          refresh_token := tok_refresh_token tokens;
          token_expiry := tok_expiry_date tokens |};;
     res_json [("message", "Authentication successful");
               ("userId", googleSub)])
    (fun err =>
       console_error "Auth callback error:" err;;
       res_status_json 500 [("error", "Authentication failed")]).

(** ** [downloadFromR2ToTemp] *)

Definition downloadFromR2ToTemp (env : Env) (objectKey : string)
  : Run string :=
  let tempFilePath := path_join (os_tmpdir env) objectKey in
  try_catch
    (s3_send_GetObject env objectKey;;
     pipeline env tempFilePath;;
     ret tempFilePath)
    (fun err =>
       fs_unlink tempFilePath DiscardError;;
       throw err).

(** ** [POST /upload] *)

Definition objectName (env : Env) : string :=
  "video_" ++ pretty (date_now env) ++ "_"
    ++ String.substring 0 8 (uuidv4 env) ++ ".mp4".

Definition userAuth_credentials (userData : TokenDoc) : Credentials :=
  {| cred_access_token := access_token userData;
     cred_refresh_token := refresh_token userData;
     cred_expiry_date := token_expiry userData |}.

Definition insert_params (req : UploadRequest) (tempFilePath : string)
  : VideoInsert :=
  {| part := "snippet,status";
     snippet_title := title req;
     snippet_description := description req;
     snippet_tags := tags req;
     snippet_categoryId := category_id req;
     status_privacyStatus := privacy_status req;
     status_publishAt :=
       if js_truthy (publish_at req) then publish_at req else None;
     media_body := tempFilePath |}.

Definition content_length_missing : JsError :=
  Error "Content-Length header missing from video source".

(** The [TypeError] of destructuring [undefined]. *)
Definition cannot_destructure : JsError :=
  Error "Cannot destructure property 'video_url' of 'req.body' as it is undefined.".

(** The [TypeError] of [JSON.stringify] on a stream. *)
Definition not_serialisable : JsError :=
  Error "Converting circular structure to JSON".

(** The body of the handler's [try] block. *)
Definition upload_try (env : Env) (req : UploadRequest) : Run unit :=
  match req_body req with
  | None => throw cannot_destructure
  | Some _ =>
  let userId := query_userId req in
  if js_not userId then
    res_status_json 401 [("error", "User not authenticated")]
  else if js_not (video_url req) then
    res_status_json 400 [("error", "Video URL is required")]
  else
    db_collection;;
    userData <- findOne env (str userId);
    match userData with
    | None => res_status_json 401 [("error", "User not found")]
    | Some userData =>
        let userAuth := userAuth_credentials userData in
        response <- axios_get env (str (video_url req));
        let contentLength := headers_content_length response in
        if js_not contentLength then throw content_length_missing
        else
          s3_send_PutObject env (objectName env)
            (parseInt (str contentLength));;
          tempFilePath <- downloadFromR2ToTemp env (objectName env);
          youtubeResponse <-
            youtube_videos_insert env userAuth (insert_params req tempFilePath);
          let data_id := fst youtubeResponse in
          s3_send_DeleteObject env (objectName env);;
          fs_unlink tempFilePath (LogError "Error deleting temp file:");;
          res_json [("videoId", data_id);
                    ("message", "Video uploaded successfully");
                    ("url", "https://youtu.be/" ++ data_id)]
    end
  end.

(** [{ error: err.message, ...(err.response?.data && { details }) }] for
    an error whose payload serialises. *)
Definition error_body (err : JsError) : Json :=
  ("error", message err)
    :: (if js_truthy (response_data err)
        then [("details", str (response_data err))]
        else []).

(** The [catch] block.  With the response stream under [details] the
    body cannot be serialised: [res.status(500).json(...)] throws and
    the handler rejects without having answered. *)
Definition upload_catch (err : Thrown) : Run unit :=
  console_error "Upload error:" err;;
  match err with
  | Err e => res_status_json 500 (error_body e)
  | StreamResponseError _ => throw not_serialisable
  end.

Definition upload (env : Env) (req : UploadRequest) : Run unit :=
  try_catch (upload_try env req) upload_catch.

(** ** Reading a run *)

(** The world a run ends in. *)
Definition after {A} (m : Run A) (w : World) : World := snd (m w).

(** The events a run appends to the trace it started with. *)
Definition events {A} (m : Run A) (w : World) : list Event :=
  drop (length (trace w)) (trace (after m w)).

(** The responses sent, first to last. *)
Definition responses (l : list Event) : list (Z * Json) :=
  omap (fun e => match e with ERespond s b => Some (s, b) | _ => None end) l.

Definition performs (p : Event -> bool) (l : list Event) : bool :=
  existsb p l.

(** *** Unlinks in flight *)

Definition run_callback (callback : UnlinkCallback) (err : option JsError)
    (w : World) : World :=
  match callback, err with
  | LogError label, Some e => log (EConsoleError label e) w
  | _, _ => w
  end.

(** One [fs.unlink] completes: it fails with the fault of the
    environment, or removes the file, or finds none. *)
Definition complete_unlink (env : Env) (w : World)
    (u : string * UnlinkCallback) : World :=
  match fs_unlink_fault env u.1 with
  | Some e => run_callback u.2 (Some e) w
  | None =>
      if bool_decide (u.1 ∈ files w)
      then run_callback u.2 None (set_files (files w ∖ {[u.1]}) w)
      else run_callback u.2 (Some (enoent u.1)) w
  end.

(** The world once every unlink in flight has completed and its
    callback has run. *)
Definition settle (env : Env) (w : World) : World :=
  foldl (complete_unlink env) (set_unlinks [] w) (unlinks w).

(** The unlinks a run leaves in flight, beyond those it started with. *)
Definition issued {A} (m : Run A) (w : World)
  : list (string * UnlinkCallback) :=
  drop (length (unlinks w)) (unlinks (after m w)).

(** ** The paths of an upload run *)

(** Names for what a run computes on its way. *)
Definition tempFilePath (env : Env) : string :=
  path_join (os_tmpdir env) (objectName env).

Definition publish_outcome (env : Env) (req : UploadRequest)
    (userData : TokenDoc) : InsertOutcome :=
  videos_insert env (userAuth_credentials userData)
    (insert_params req (tempFilePath env)).

(** What the [catch] block appends. *)
Definition failure (e : JsError) : list Event :=
  [EConsoleError "Upload error:" e; ERespond 500 (error_body e)].

Definition refresh_events (out : InsertOutcome) : list Event :=
  match refreshed out with
  | Some c => [ETokensRefreshed c]
  | None => []
  end.

Definition success_body (id : string) : Json :=
  [("videoId", id); ("message", "Video uploaded successfully");
   ("url", "https://youtu.be/" ++ id)].

(** The request passed both checks and the store returned [userData]. *)
Definition authenticated (env : Env) (req : UploadRequest) (w : World)
    (userData : TokenDoc) : Prop :=
  js_not (query_userId req) = false ∧
  js_not (video_url req) = false ∧
  mongo_fault env = None ∧
  ∃ c : gmap string TokenDoc,
    db w = Some c ∧ c !! str (query_userId req) = Some userData.

(** The source answered with a non-empty [content-length] header. *)
Definition fetched (env : Env) (req : UploadRequest) (r : AxiosResponse)
  : Prop :=
  axios_response env (str (video_url req)) = inr r ∧
  js_not (headers_content_length r) = false.

Definition staged (env : Env) : Prop :=
  s3_put_fault env (objectName env) = None.

Definition materialized (env : Env) : Prop :=
  s3_get_fault env (objectName env) = None ∧
  pipeline_result env (tempFilePath env) = PipeDone.

(** Events up to and including each step of a run that got that far. *)
Definition upto_lookup (req : UploadRequest) : list Event :=
  [EFindOne (str (query_userId req))].
Definition upto_fetch (req : UploadRequest) : list Event :=
  upto_lookup req ++ [EAxiosGet (str (video_url req))].
Definition upto_stage (env : Env) (req : UploadRequest) (r : AxiosResponse)
  : list Event :=
  upto_fetch req
    ++ [EPutObject (objectName env)
          (parseInt (str (headers_content_length r)))].
Definition upto_materialize (env : Env) (req : UploadRequest)
    (r : AxiosResponse) : list Event :=
  upto_stage env req r
    ++ [EGetObject (objectName env); EPipeline (tempFilePath env)].
Definition upto_publish (env : Env) (req : UploadRequest)
    (r : AxiosResponse) (userData : TokenDoc) : list Event :=
  upto_materialize env req r
    ++ [EVideosInsert (userAuth_credentials userData)
          (insert_params req (tempFilePath env))]
    ++ refresh_events (publish_outcome env req userData).

(** [UploadPath env req w evs b f u c]: a run of the handler from [w]
    appends [evs] to the trace, leaves the bucket [b] and the files [f],
    leaves the unlinks [u] in flight and ends with [c]. *)
Inductive UploadPath (env : Env) (req : UploadRequest) (w : World)
  : list Event -> gset string -> gset string
    -> list (string * UnlinkCallback) -> Completion unit -> Prop :=
| path_body_unparsed :
    req_body req = None ->
    UploadPath env req w (failure cannot_destructure)
      (bucket w) (files w) [] (Normal tt)
| path_unauthenticated :
    is_Some (req_body req) ->
    js_not (query_userId req) = true ->
    UploadPath env req w
      [ERespond 401 [("error", "User not authenticated")]]
      (bucket w) (files w) [] (Normal tt)
| path_no_video_url :
    is_Some (req_body req) ->
    js_not (query_userId req) = false ->
    js_not (video_url req) = true ->
    UploadPath env req w
      [ERespond 400 [("error", "Video URL is required")]]
      (bucket w) (files w) [] (Normal tt)
| path_db_unassigned :
    js_not (query_userId req) = false ->
    js_not (video_url req) = false ->
    db w = None ->
    UploadPath env req w (failure type_error_db) (bucket w) (files w)
      [] (Normal tt)
| path_lookup_rejected e :
    js_not (query_userId req) = false ->
    js_not (video_url req) = false ->
    is_Some (db w) ->
    mongo_fault env = Some e ->
    UploadPath env req w (upto_lookup req ++ failure e) (bucket w) (files w)
      [] (Normal tt)
| path_user_not_found (c : gmap string TokenDoc) :
    js_not (query_userId req) = false ->
    js_not (video_url req) = false ->
    mongo_fault env = None ->
    db w = Some c ->
    c !! str (query_userId req) = None ->
    UploadPath env req w
      (upto_lookup req ++ [ERespond 401 [("error", "User not found")]])
      (bucket w) (files w) [] (Normal tt)
| path_fetch_failed userData msg :
    authenticated env req w userData ->
    axios_response env (str (video_url req)) = inl (NoResponse msg) ->
    UploadPath env req w (upto_fetch req ++ failure (Error msg))
      (bucket w) (files w) [] (Normal tt)
| path_fetch_error_status userData msg :
    authenticated env req w userData ->
    axios_response env (str (video_url req)) = inl (ErrorStatus msg) ->
    UploadPath env req w
      (upto_fetch req
         ++ [EConsoleError "Upload error:" (StreamResponseError msg)])
      (bucket w) (files w) [] (Throw not_serialisable)
| path_length_missing userData r :
    authenticated env req w userData ->
    axios_response env (str (video_url req)) = inr r ->
    js_not (headers_content_length r) = true ->
    UploadPath env req w (upto_fetch req ++ failure content_length_missing)
      (bucket w) (files w) [] (Normal tt)
| path_stage_failed userData r e :
    authenticated env req w userData ->
    fetched env req r ->
    s3_put_fault env (objectName env) = Some e ->
    UploadPath env req w (upto_stage env req r ++ failure e)
      (bucket w) (files w) [] (Normal tt)
| path_read_failed userData r e :
    authenticated env req w userData ->
    fetched env req r ->
    staged env ->
    s3_get_fault env (objectName env) = Some e ->
    UploadPath env req w
      (upto_stage env req r
         ++ [EGetObject (objectName env); EUnlink (tempFilePath env)]
         ++ failure e)
      ({[objectName env]} ∪ bucket w) (files w)
      [(tempFilePath env, DiscardError)] (Normal tt)
| path_copy_failed userData r e partial :
    authenticated env req w userData ->
    fetched env req r ->
    staged env ->
    s3_get_fault env (objectName env) = None ->
    pipeline_result env (tempFilePath env) = PipeBroken e partial ->
    UploadPath env req w
      (upto_materialize env req r
         ++ [EUnlink (tempFilePath env)] ++ failure e)
      ({[objectName env]} ∪ bucket w)
      (if partial then {[tempFilePath env]} ∪ files w else files w)
      [(tempFilePath env, DiscardError)] (Normal tt)
| path_publish_failed userData r e :
    authenticated env req w userData ->
    fetched env req r ->
    staged env ->
    materialized env ->
    insert_result (publish_outcome env req userData) = inl e ->
    UploadPath env req w (upto_publish env req r userData ++ failure e)
      ({[objectName env]} ∪ bucket w) ({[tempFilePath env]} ∪ files w)
      [] (Normal tt)
| path_delete_failed userData r id e :
    authenticated env req w userData ->
    fetched env req r ->
    staged env ->
    materialized env ->
    insert_result (publish_outcome env req userData) = inr id ->
    s3_delete_fault env (objectName env) = Some e ->
    UploadPath env req w
      (upto_publish env req r userData
         ++ [EDeleteObject (objectName env)] ++ failure e)
      ({[objectName env]} ∪ bucket w) ({[tempFilePath env]} ∪ files w)
      [] (Normal tt)
| path_completed userData r id :
    authenticated env req w userData ->
    fetched env req r ->
    staged env ->
    materialized env ->
    insert_result (publish_outcome env req userData) = inr id ->
    s3_delete_fault env (objectName env) = None ->
    UploadPath env req w
      (upto_publish env req r userData
         ++ [EDeleteObject (objectName env); EUnlink (tempFilePath env);
             ERespond 200 (success_body id)])
      (bucket w ∖ {[objectName env]}) ({[tempFilePath env]} ∪ files w)
      [(tempFilePath env, LogError "Error deleting temp file:")] (Normal tt).

(** The world [w] with the bucket [b], the files [f], [evs] appended to
    its trace and [u] to its unlinks in flight. *)
Definition finish (w : World) (evs : list Event) (b f : gset string)
    (u : list (string * UnlinkCallback)) : World :=
  {| db := db w; oauth2Client := oauth2Client w; bucket := b; files := f;
     unlinks := unlinks w ++ u; trace := trace w ++ evs |}.

(** ** Scenarios *)

Definition tokens_sub1 : TokenDoc :=
  {| email := Some "user@example.com";
     access_token := Some "ya29.old";
     refresh_token := Some "1//refresh";
     token_expiry := Some 1699999000000 |}.

Definition world_a : World :=
  {| db := Some {["sub-1" := tokens_sub1]};
     oauth2Client := no_credentials;
     bucket := ∅; files := ∅; unlinks := []; trace := [] |}.

Definition response_12345 : AxiosResponse :=
  {| headers_content_length := Some "12345"; content_length_wf := I |}.

Definition response_no_length : AxiosResponse :=
  {| headers_content_length := None; content_length_wf := I |}.

(** An environment in which every call not named by an argument goes
    well. *)
Definition scenario (response : AxiosResponse) (copy : PipeOutcome)
    (publish : InsertOutcome) (delete_fault : option JsError) : Env :=
  {| date_now := 1700000000000;
     uuidv4 := "9b2e7c41-5d0a-4f3e-8a76-0c1d2e3f4a5b";
     os_tmpdir := "/tmp";
     mongo_fault := None;
     axios_response := fun _ => inr response;
     s3_put_fault := fun _ => None;
     s3_get_fault := fun _ => None;
     pipeline_result := fun _ => copy;
     videos_insert := fun _ _ => publish;
     s3_delete_fault := fun _ => delete_fault;
     fs_unlink_fault := fun _ => None;
     oauth_getToken := fun _ => inl (Error "invalid_grant");
     oauth_verifyIdToken := fun _ => inl (Error "invalid_token") |}.

Definition published_vid42 : InsertOutcome :=
  {| refreshed := None; insert_result := inr "vid42" |}.

Definition quota_exceeded : JsError :=
  {| message := "The request cannot be completed because you have exceeded your quota.";
     response_data := Some "quotaExceeded" |}.

Definition slow_down : JsError := Error "Please reduce your request rate.".

Definition broken_pipe : JsError := Error "Premature close".

Definition refreshed_credentials : Credentials :=
  {| cred_access_token := Some "ya29.new";
     cred_refresh_token := Some "1//refresh";
     cred_expiry_date := Some 1700003600000 |}.

(** Scenario A: everything goes well. *)
Definition env_a : Env := scenario response_12345 PipeDone published_vid42 None.

(** Scenario B: the source declares no length. *)
Definition env_no_length : Env := scenario response_no_length PipeDone published_vid42 None.

(** The copy to the temporary file breaks half way. *)
Definition env_broken_copy : Env :=
  scenario response_12345 (PipeBroken broken_pipe true) published_vid42 None.

(** Scenario C: the publish call is rejected for quota. *)
Definition env_quota : Env :=
  scenario response_12345 PipeDone
    {| refreshed := None; insert_result := inl quota_exceeded |} None.

(** The publish call succeeds, the delete of the staged object fails. *)
Definition env_delete_fails : Env :=
  scenario response_12345 PipeDone published_vid42 (Some slow_down).

(** The stored access token is expired; the client refreshes it. *)
Definition env_refresh : Env :=
  scenario response_12345 PipeDone
    {| refreshed := Some refreshed_credentials; insert_result := inr "vid42" |}
    None.

Definition request_for (userId url : option string) : UploadRequest :=
  {| query_userId := userId;
     req_body :=
       Some {| body_video_url := url;
               body_title := Some "T"; body_description := None;
               body_tags := None; body_category_id := None;
               body_privacy_status := Some "private";
               body_publish_at := None |} |}.

(** A request whose body was not parsed: [req.body] is [undefined]. *)
Definition request_without_body (userId : option string) : UploadRequest :=
  {| query_userId := userId; req_body := None |}.

Definition req_a : UploadRequest :=
  request_for (Some "sub-1") (Some "https://example.com/a.mp4").

(** The world of scenario A once the object is staged. *)
Definition world_staged : World :=
  set_bucket {[objectName env_broken_copy]} world_a.

(** ** Measures on traces *)

Definition is_lookup (e : Event) : bool :=
  match e with EFindOne _ => true | _ => false end.
Definition is_materialize (e : Event) : bool :=
  match e with EGetObject _ => true | _ => false end.
Definition is_delete (e : Event) : bool :=
  match e with EDeleteObject _ => true | _ => false end.

(** How many events of a kind a trace holds. *)
Definition count_of (p : Event -> bool) (l : list Event) : nat :=
  length (List.filter p l).

(** No character of [s] is an underscore. *)
Fixpoint no_underscore (s : string) : Prop :=
  match s with
  | EmptyString => True
  | String c r => c ≠ "_"%char ∧ no_underscore r
  end.

(** ** The paths of a callback run *)

(** What [oauth2Client.setCredentials(tokens)] leaves in the client. *)
Definition credentials_of (t : Tokens) : Credentials :=
  {| cred_access_token := tok_access_token t;
     cred_refresh_token := tok_refresh_token t;
     cred_expiry_date := tok_expiry_date t |}.

(** The fields the callback writes under the subject. *)
Definition callback_doc (t : Tokens) (p : Payload) : TokenDoc :=
  {| email := payload_email p;
     access_token := tok_access_token t;
     refresh_token := tok_refresh_token t;
     token_expiry := tok_expiry_date t |}.

(** What the [catch] block of the callback appends. *)
Definition callback_failure (e : JsError) : list Event :=
  [EConsoleError "Auth callback error:" e;
   ERespond 500 [("error", "Authentication failed")]].

(** [CallbackPath env code w evs d c]: a run of the callback from [w]
    appends [evs] to the trace and leaves the store [d] and the
    process-wide client [c]. *)
Inductive CallbackPath (env : Env) (code : option string) (w : World)
  : list Event -> option (gmap string TokenDoc) -> Credentials -> Prop :=
| callback_exchange_failed e :
    oauth_getToken env code = inl e ->
    CallbackPath env code w ([EGetToken code] ++ callback_failure e)
      (db w) (oauth2Client w)
| callback_verify_failed tokens e :
    oauth_getToken env code = inr tokens ->
    oauth_verifyIdToken env (tok_id_token tokens) = inl e ->
    CallbackPath env code w
      ([EGetToken code; EVerifyIdToken (tok_id_token tokens)]
         ++ callback_failure e)
      (db w) (credentials_of tokens)
| callback_db_unassigned tokens payload :
    oauth_getToken env code = inr tokens ->
    oauth_verifyIdToken env (tok_id_token tokens) = inr payload ->
    db w = None ->
    CallbackPath env code w
      ([EGetToken code; EVerifyIdToken (tok_id_token tokens)]
         ++ callback_failure type_error_db)
      (db w) (credentials_of tokens)
| callback_upsert_rejected tokens payload e :
    oauth_getToken env code = inr tokens ->
    oauth_verifyIdToken env (tok_id_token tokens) = inr payload ->
    is_Some (db w) ->
    mongo_fault env = Some e ->
    CallbackPath env code w
      ([EGetToken code; EVerifyIdToken (tok_id_token tokens);
        EUpdateOne (payload_sub payload) (callback_doc tokens payload)]
         ++ callback_failure e)
      (db w) (credentials_of tokens)
| callback_completed tokens payload (c : gmap string TokenDoc) :
    oauth_getToken env code = inr tokens ->
    oauth_verifyIdToken env (tok_id_token tokens) = inr payload ->
    db w = Some c ->
    mongo_fault env = None ->
    CallbackPath env code w
      [EGetToken code; EVerifyIdToken (tok_id_token tokens);
       EUpdateOne (payload_sub payload) (callback_doc tokens payload);
       ERespond 200 [("message", "Authentication successful");
                     ("userId", payload_sub payload)]]
      (Some (<[payload_sub payload := callback_doc tokens payload]> c))
      (credentials_of tokens).

(** ** More scenarios *)

Definition rate_limited : AxiosError :=
  ErrorStatus "Request failed with status code 429".

Definition connection_refused : AxiosError :=
  NoResponse "connect ECONNREFUSED 203.0.113.7:443".

Definition permission_denied : JsError :=
  Error "EPERM: operation not permitted, unlink".

Definition access_denied : JsError := Error "Access Denied".

(** The source rejects the request. *)
Definition env_fetch_fails : Env :=
  {| date_now := date_now env_a; uuidv4 := uuidv4 env_a;
     os_tmpdir := os_tmpdir env_a; mongo_fault := None;
     axios_response := fun _ => inl rate_limited;
     s3_put_fault := s3_put_fault env_a; s3_get_fault := s3_get_fault env_a;
     pipeline_result := pipeline_result env_a;
     videos_insert := videos_insert env_a;
     s3_delete_fault := s3_delete_fault env_a;
     fs_unlink_fault := fs_unlink_fault env_a;
     oauth_getToken := oauth_getToken env_a;
     oauth_verifyIdToken := oauth_verifyIdToken env_a |}.

(** The bucket rejects the upload of the object. *)
Definition env_put_fails : Env :=
  {| date_now := date_now env_a; uuidv4 := uuidv4 env_a;
     os_tmpdir := os_tmpdir env_a; mongo_fault := None;
     axios_response := axios_response env_a;
     s3_put_fault := fun _ => Some access_denied;
     s3_get_fault := s3_get_fault env_a;
     pipeline_result := pipeline_result env_a;
     videos_insert := videos_insert env_a;
     s3_delete_fault := s3_delete_fault env_a;
     fs_unlink_fault := fs_unlink_fault env_a;
     oauth_getToken := oauth_getToken env_a;
     oauth_verifyIdToken := oauth_verifyIdToken env_a |}.

(** The source cannot be reached. *)
Definition env_unreachable : Env :=
  {| date_now := date_now env_a; uuidv4 := uuidv4 env_a;
     os_tmpdir := os_tmpdir env_a; mongo_fault := None;
     axios_response := fun _ => inl connection_refused;
     s3_put_fault := s3_put_fault env_a; s3_get_fault := s3_get_fault env_a;
     pipeline_result := pipeline_result env_a;
     videos_insert := videos_insert env_a;
     s3_delete_fault := s3_delete_fault env_a;
     fs_unlink_fault := fs_unlink_fault env_a;
     oauth_getToken := oauth_getToken env_a;
     oauth_verifyIdToken := oauth_verifyIdToken env_a |}.

(** Everything goes well but the unlink of the temporary file. *)
Definition env_unlink_fails : Env :=
  {| date_now := date_now env_a; uuidv4 := uuidv4 env_a;
     os_tmpdir := os_tmpdir env_a; mongo_fault := None;
     axios_response := axios_response env_a;
     s3_put_fault := s3_put_fault env_a; s3_get_fault := s3_get_fault env_a;
     pipeline_result := pipeline_result env_a;
     videos_insert := videos_insert env_a;
     s3_delete_fault := s3_delete_fault env_a;
     fs_unlink_fault := fun _ => Some permission_denied;
     oauth_getToken := oauth_getToken env_a;
     oauth_verifyIdToken := oauth_verifyIdToken env_a |}.

(** The request arrives before [MongoClient.connect] has resolved. *)
Definition world_unconnected : World := set_db None world_a.

Definition tokens_sub2 : Tokens :=
  {| tok_id_token := Some "eyJhbGciOi.id-token";
     tok_access_token := Some "ya29.sub2";
     tok_refresh_token := Some "1//refresh-sub2";
     tok_expiry_date := Some 1700003600000 |}.

Definition payload_sub2 : Payload :=
  {| payload_sub := "sub-2"; payload_email := Some "second@example.com" |}.

(** The code exchange and the verification of the id token succeed. *)
Definition env_callback : Env :=
  {| date_now := date_now env_a; uuidv4 := uuidv4 env_a;
     os_tmpdir := os_tmpdir env_a; mongo_fault := None;
     axios_response := axios_response env_a;
     s3_put_fault := s3_put_fault env_a; s3_get_fault := s3_get_fault env_a;
     pipeline_result := pipeline_result env_a;
     videos_insert := videos_insert env_a;
     s3_delete_fault := s3_delete_fault env_a;
     fs_unlink_fault := fs_unlink_fault env_a;
     oauth_getToken := fun _ => inr tokens_sub2;
     oauth_verifyIdToken := fun _ => inr payload_sub2 |}.

Definition req_sub2 : UploadRequest :=
  request_for (Some "sub-2") (Some "https://example.com/a.mp4").

(** * Properties *)

(** ** Worlds and sets *)

Lemma world_ext (w1 w2 : World) :
  db w1 = db w2 -> oauth2Client w1 = oauth2Client w2 ->
  bucket w1 = bucket w2 -> files w1 = files w2 ->
  unlinks w1 = unlinks w2 -> trace w1 = trace w2 ->
  w1 = w2.
Proof. destruct w1, w2; cbn; congruence. Qed.

Lemma elem_of_added (x : string) (X : gset string) : x ∈ {[x]} ∪ X.
Proof. apply elem_of_union_l, elem_of_singleton. reflexivity. Qed.

Lemma remove_added (x : string) (X : gset string) :
  ({[x]} ∪ X) ∖ {[x]} = X ∖ {[x]}.
Proof.
  apply set_eq; intros y.
  rewrite !elem_of_difference, elem_of_union, elem_of_singleton. tauto.
Qed.

Lemma remove_absent (x : string) (X : gset string) : x ∉ X -> X = X ∖ {[x]}.
Proof.
  intros Hx. apply set_eq; intros y.
  rewrite elem_of_difference, elem_of_singleton.
  split; [intros Hy; split; [exact Hy | congruence] | tauto].
Qed.

Lemma not_elem_of_removed (x : string) (X : gset string) : x ∉ X ∖ {[x]}.
Proof. rewrite elem_of_difference, elem_of_singleton. tauto. Qed.

(** ** Every run follows one of the paths *)

Ltac run_unfold :=
  unfold upload, upload_catch, upload_try, downloadFromR2ToTemp,
    youtube_videos_insert, s3_send_PutObject, s3_send_GetObject,
    s3_send_DeleteObject, pipeline, fs_unlink, axios_get, findOne,
    db_collection, console_error, res_json, res_status_json, try_catch, bind,
    ret, throw, emit in *.

(** Closes [(c, w') = (c, finish w evs b f u)] field by field. *)
Ltac finish_path :=
  apply (f_equal (pair _)); apply world_ext;
  cbn [db oauth2Client bucket files unlinks trace log set_bucket set_files
         set_unlinks finish];
    [reflexivity | reflexivity
    | first [apply remove_added | reflexivity]
    | reflexivity
    | cbn [app]; rewrite <- ?app_assoc, ?app_nil_r; reflexivity
    | cbn [app]; rewrite <- ?app_assoc; reflexivity].

Ltac take_path lem :=
  eexists _, _, _, _, _; split; [by eapply lem |].

Lemma video_url_parsed (req : UploadRequest) :
  js_not (video_url req) = false -> is_Some (req_body req).
Proof.
  unfold video_url. destruct (req_body req); [eauto | discriminate].
Qed.

Lemma upload_path (env : Env) (req : UploadRequest) (w : World) :
  ∃ evs b f u c,
    UploadPath env req w evs b f u c ∧
    upload env req w = (c, finish w evs b f u).
Proof.
  run_unfold.
  destruct (req_body req) as [body |] eqn:Hbody; cbn.
  2:{ take_path path_body_unparsed. finish_path. }
  assert (Hparsed : is_Some (req_body req)) by (rewrite Hbody; eauto).
  destruct (js_not (query_userId req)) eqn:Hu; cbn.
  { take_path path_unauthenticated. finish_path. }
  destruct (js_not (video_url req)) eqn:Hv; cbn.
  { take_path path_no_video_url. finish_path. }
  destruct (db w) as [c|] eqn:Hdb; cbn.
  2:{ take_path path_db_unassigned. finish_path. }
  destruct (mongo_fault env) eqn:Hm; cbn.
  { take_path path_lookup_rejected. finish_path. }
  rewrite ?Hdb; cbn.
  destruct (c !! str (query_userId req)) as [userData|] eqn:Hc; cbn.
  2:{ take_path path_user_not_found. finish_path. }
  assert (Ha : authenticated env req w userData)
    by (unfold authenticated; eauto 10).
  destruct (axios_response env _) as [[msg | msg] | r] eqn:Hax; cbn.
  { take_path path_fetch_failed. finish_path. }
  { take_path path_fetch_error_status. finish_path. }
  destruct (js_not (headers_content_length r)) eqn:Hcl; cbn.
  { take_path path_length_missing. finish_path. }
  assert (Hf : fetched env req r) by done.
  destruct (s3_put_fault env _) eqn:Hput; cbn.
  { take_path path_stage_failed. finish_path. }
  destruct (s3_get_fault env _) eqn:Hget; cbn.
  { take_path path_read_failed. finish_path. }
  rewrite bool_decide_true by apply elem_of_added. cbn.
  change (path_join (os_tmpdir env) (objectName env)) with (tempFilePath env).
  destruct (pipeline_result env _) as [|e [|]] eqn:Hpipe; cbn.
  2:{ take_path path_copy_failed. finish_path. }
  2:{ take_path path_copy_failed. finish_path. }
  assert (Hmat : materialized env) by done.
  fold (publish_outcome env req userData).
  destruct (insert_result (publish_outcome env req userData))
    as [e|id] eqn:Hins.
  { take_path path_publish_failed.
    unfold upto_publish, refresh_events.
    destruct (refreshed _); cbn; rewrite ?Hins; cbn; finish_path. }
  destruct (s3_delete_fault env _) eqn:Hdel.
  { take_path path_delete_failed.
    unfold upto_publish, refresh_events.
    destruct (refreshed _); cbn; rewrite ?Hins; cbn; finish_path. }
  take_path path_completed.
  unfold upto_publish, refresh_events.
  destruct (refreshed _); cbn; rewrite ?Hins; cbn; finish_path.
Qed.

Lemma events_finish {A} (m : Run A) (w : World) a evs b f u :
  m w = (a, finish w evs b f u) -> events m w = evs.
Proof.
  unfold events, after. intros ->. cbn. apply drop_app_length.
Qed.

(** The path of a run, with what the run appended and left behind. *)
Lemma upload_run (env : Env) (req : UploadRequest) (w : World) :
  UploadPath env req w (events (upload env req) w)
    (bucket (after (upload env req) w)) (files (after (upload env req) w))
    (issued (upload env req) w) (fst (upload env req w))
  ∧ db (after (upload env req) w) = db w
  ∧ oauth2Client (after (upload env req) w) = oauth2Client w.
Proof.
  destruct (upload_path env req w) as (evs & b & f & u & c & Hp & Heq).
  rewrite (events_finish _ _ _ _ _ _ _ Heq).
  unfold issued, after. rewrite Heq. cbn. rewrite drop_app_length. auto.
Qed.

(** What is in flight after a run is what was before and what the run
    issued. *)
Lemma unlinks_after_upload (env : Env) (req : UploadRequest) (w : World) :
  unlinks (after (upload env req) w)
  = (unlinks w ++ issued (upload env req) w)%list.
Proof.
  destruct (upload_path env req w) as (evs & b & f & u & c & Hp & Heq).
  unfold issued, after. rewrite Heq. cbn. rewrite drop_app_length.
  reflexivity.
Qed.


(** Unfolds the event lists of the paths; the refresh event is the only
    part that depends on the environment. *)
Ltac unfold_events :=
  unfold upto_publish, upto_materialize, upto_stage, upto_fetch, upto_lookup,
    refresh_events, failure in *;
  repeat match goal with
         | |- context [refreshed ?o] => destruct (refreshed o)
         | H : context [refreshed ?o] |- _ => destruct (refreshed o)
         end;
  cbn in *.

(** Two descriptions of the same run agree on what the store and the
    source returned. *)
Ltac same_run :=
  unfold authenticated, fetched, staged, materialized in *;
  repeat match goal with
         | H : _ ∧ _ |- _ => destruct H
         | H : ∃ _, _ |- _ => destruct H
         | H : is_Some _ |- _ => destruct H
         end;
  try match goal with
      | H : req_body ?r = None, H' : js_not (video_url ?r) = false |- _ =>
          unfold video_url in H'; rewrite H in H'; discriminate H'
      end;
  repeat match goal with
         | H1 : ?x = _, H2 : ?x = _ |- _ => rewrite H1 in H2; simplify_eq
         end;
  simplify_eq; try congruence.

(** Replaces what a run appended and left behind by the description of
    each path it may have followed. *)
Ltac run_cases env req w :=
  let Hp := fresh "Hp" in
  let Hdb := fresh "Hdb" in
  let Hcl := fresh "Hcl" in
  let evs := fresh "evs" in
  let b := fresh "b" in
  let f := fresh "f" in
  let u := fresh "u" in
  let c := fresh "c" in
  destruct (upload_run env req w) as (Hp & Hdb & Hcl);
  generalize dependent (events (upload env req) w); intros evs;
  generalize dependent (bucket (after (upload env req) w)); intros b;
  generalize dependent (files (after (upload env req) w)); intros f;
  generalize dependent (issued (upload env req) w); intros u;
  generalize dependent (fst (upload env req w)); intros c;
  intros; inversion Hp; subst; clear Hp.

(** ** Requests rejected before any call *)










(** ** Unknown users *)




(** ** The declared length *)

Lemma parseInt_digit_first (c : ascii) (r : string) :
  is_digit c = true ->
  parseInt (String c r) = to_double <$> read_digits (String c r) 0 false.
Proof.
  intros Hc.
  destruct c as [[] [] [] [] [] [] [] []];
    vm_compute in Hc; try discriminate Hc; reflexivity.
Qed.

Lemma read_digits_all_digits (s : string) (acc : Z) :
  all_digits s = true -> is_Some (read_digits s acc true).
Proof.
  revert acc. induction s as [| c s IH]; intros acc Hs; cbn in *.
  - eauto.
  - apply andb_true_iff in Hs as [Hc Hs]. unfold is_digit in Hc.
    destruct (digit_of c); [apply IH, Hs | discriminate Hc].
Qed.

(** A header the parser let through is a number for [parseInt], and is
    truthy. *)
Lemma parseInt_content_length (s : string) :
  Is_true (content_length_ok (Some s)) ->
  is_Some (parseInt s) ∧ js_not (Some s) = false.
Proof.
  intros Hok. apply Is_true_true in Hok. cbn in Hok.
  apply andb_true_iff in Hok as [Hne Hs].
  apply negb_true_iff in Hne. split; [| exact Hne].
  destruct s as [| c r]; [discriminate Hne |].
  cbn in Hs. apply andb_true_iff in Hs as [Hc Hr].
  rewrite (parseInt_digit_first c r Hc). cbn [read_digits].
  unfold is_digit in Hc. destruct (digit_of c) as [d |]; [| discriminate Hc].
  destruct (read_digits_all_digits r (10 * 0 + d) Hr) as [v ->].
  cbn. eauto.
Qed.

(** C4: once the source has answered, the run goes on to the stage call
    only if the response carries a [content-length] that [parseInt]
    reads as a number, and then stages with that number as the length.
    With no such length the run throws before the stage call, answers
    500 with the message of [content_length_missing], and the bucket is
    untouched. *)
Theorem fetch_requires_content_length
    (env : Env) (req : UploadRequest) (w : World)
    (userData : TokenDoc) (r : AxiosResponse) :
  authenticated env req w userData ->
  axios_response env (str (video_url req)) = inr r ->
  match headers_content_length r ≫= parseInt with
  | None =>
      events (upload env req) w
      = [EFindOne (str (query_userId req)); EAxiosGet (str (video_url req));
         EConsoleError "Upload error:" content_length_missing;
         ERespond 500
           [("error", "Content-Length header missing from video source")]]
      ∧ performs is_stage (events (upload env req) w) = false
      ∧ bucket (after (upload env req) w) = bucket w
  | Some n =>
      EPutObject (objectName env) (Some n) ∈ events (upload env req) w
  end.
Proof.
  intros Ha Hax.
  pose proof (content_length_wf r) as Hwf.
  destruct (headers_content_length r) as [s |] eqn:Hh.
  - destruct (parseInt_content_length s Hwf) as [[n Hn] Hlen].
    cbn. rewrite Hn.
    assert (Hput : parseInt (str (headers_content_length r)) = Some n)
      by (rewrite Hh; exact Hn).
    rewrite <- Hh in Hlen. clear Hwf Hn Hh.
    run_cases env req w; same_run;
      unfold upto_publish, upto_materialize, upto_stage in *;
      rewrite ?Hput; unfold_events; repeat constructor.
  - cbn.
    run_cases env req w; same_run; unfold_events;
      rewrite ?Hh in *; cbn in *; try discriminate;
      repeat split.
Qed.

Lemma fetch_requires_content_length_witness :
  events (upload env_no_length req_a) world_a
    = [EFindOne "sub-1"; EAxiosGet "https://example.com/a.mp4";
       EConsoleError "Upload error:" content_length_missing;
       ERespond 500
         [("error", "Content-Length header missing from video source")]]
  ∧ performs is_stage (events (upload env_no_length req_a) world_a) = false
  ∧ bucket (after (upload env_no_length req_a) world_a) = bucket world_a.
Proof.
  apply (fetch_requires_content_length env_no_length req_a world_a
           tokens_sub1 response_no_length).
  - repeat split. exists {["sub-1" := tokens_sub1]}. split; reflexivity.
  - reflexivity.
Defined.

(** ** Successful runs *)

(** C5: a run that answers 200 got the id from the publish call, answers
    with [videoId], [message] and [url], and has deleted the object it
    staged before it answers. *)
Theorem upload_success_deletes_staged_object
    (env : Env) (req : UploadRequest) (w : World) (body : Json) :
  (200, body) ∈ responses (events (upload env req) w) ->
  ∃ userData r id,
    authenticated env req w userData
    ∧ insert_result (publish_outcome env req userData) = inr id
    ∧ body = [("videoId", id); ("message", "Video uploaded successfully");
              ("url", ("https://youtu.be/" ++ id)%string)]
    ∧ events (upload env req) w
      = (upto_publish env req r userData
           ++ [EDeleteObject (objectName env); EUnlink (tempFilePath env);
               ERespond 200 body])%list
    ∧ EPutObject (objectName env) (parseInt (str (headers_content_length r)))
        ∈ upto_publish env req r userData
    ∧ s3_delete_fault env (objectName env) = None
    ∧ objectName env ∉ bucket (after (upload env req) w).
Proof.
  intros Hok.
  run_cases env req w;
    try (exfalso; unfold_events;
         first [ apply list_elem_of_singleton in Hok; discriminate Hok
               | apply elem_of_nil in Hok; exact Hok ]).
  assert (Hbody : body = success_body id).
  { unfold_events; apply list_elem_of_singleton in Hok; congruence. }
  subst body. exists userData, r, id.
  split; [assumption |]. split; [assumption |]. split; [reflexivity |].
  split; [| split; [| split; [assumption |]]].
  - reflexivity.
  - unfold_events; repeat constructor.
  - apply not_elem_of_removed.
Qed.

Lemma upload_success_deletes_staged_object_witness :
  ∃ userData r id,
    authenticated env_a req_a world_a userData
    ∧ insert_result (publish_outcome env_a req_a userData) = inr id
    ∧ success_body "vid42"
      = [("videoId", id); ("message", "Video uploaded successfully");
         ("url", ("https://youtu.be/" ++ id)%string)]
    ∧ events (upload env_a req_a) world_a
      = (upto_publish env_a req_a r userData
           ++ [EDeleteObject (objectName env_a); EUnlink (tempFilePath env_a);
               ERespond 200 (success_body "vid42")])%list
    ∧ EPutObject (objectName env_a)
        (parseInt (str (headers_content_length r)))
        ∈ upto_publish env_a req_a r userData
    ∧ s3_delete_fault env_a (objectName env_a) = None
    ∧ objectName env_a ∉ bucket (after (upload env_a req_a) world_a).
Proof.
  apply (upload_success_deletes_staged_object env_a req_a world_a
           (success_body "vid42")).
  vm_compute. repeat constructor.
Defined.

(** ** Unlinks in flight *)

Lemma files_run_callback (cb : UnlinkCallback) (err : option JsError)
    (w : World) :
  files (run_callback cb err w) = files w.
Proof. destruct cb, err; reflexivity. Qed.

Lemma files_complete_unlink (env : Env) (w : World) (p : string)
    (cb : UnlinkCallback) :
  files (complete_unlink env w (p, cb))
  = match fs_unlink_fault env p with
    | Some _ => files w
    | None => files w ∖ {[p]}
    end.
Proof.
  unfold complete_unlink. cbn.
  destruct (fs_unlink_fault env p); [apply files_run_callback |].
  case_bool_decide as Hp; rewrite files_run_callback; cbn;
    [reflexivity | by apply remove_absent].
Qed.

Lemma settle_snoc (env : Env) (w : World) l (u : string * UnlinkCallback) :
  unlinks w = (l ++ [u])%list ->
  settle env w = complete_unlink env (settle env (set_unlinks l w)) u.
Proof.
  intros Hu. unfold settle. rewrite Hu. cbn [unlinks set_unlinks].
  rewrite foldl_snoc. reflexivity.
Qed.

(** Once it has completed without fault, the last unlink in flight has
    left no file at its path. *)
Lemma settle_removes_last (env : Env) (w : World) l (p : string)
    (cb : UnlinkCallback) :
  unlinks w = (l ++ [(p, cb)])%list ->
  fs_unlink_fault env p = None ->
  p ∉ files (settle env w).
Proof.
  intros Hu Hok. rewrite (settle_snoc env w l (p, cb) Hu).
  rewrite files_complete_unlink, Hok. apply not_elem_of_removed.
Qed.

(** While the unlinks of a path fail, completing what is in flight
    neither creates nor removes the file at that path. *)
Lemma settle_keeps_on_fault (env : Env) (w : World) (p : string) :
  is_Some (fs_unlink_fault env p) ->
  p ∈ files (settle env w) ↔ p ∈ files w.
Proof.
  intros [e He]. unfold settle.
  change (files w) with (files (set_unlinks [] w)).
  generalize (set_unlinks [] w) as w0.
  induction (unlinks w) as [| [q cb] l IH]; intros w0; cbn [foldl].
  - reflexivity.
  - rewrite IH, files_complete_unlink.
    destruct (fs_unlink_fault env q) eqn:Hq; [reflexivity |].
    rewrite elem_of_difference, elem_of_singleton.
    split; [tauto |]. intros Hp. split; [exact Hp |]. congruence.
Qed.

(** ** Materialisation *)

(** The handler of the [catch] in [downloadFromR2ToTemp]. *)
Lemma unlink_and_rethrow (p : string) (e : Thrown) (w : World) :
  (fs_unlink p DiscardError;; throw (A:=string) e) w
  = (Throw e, set_unlinks (unlinks w ++ [(p, DiscardError)]) (log (EUnlink p) w)).
Proof. reflexivity. Qed.

(** The [try] block of [downloadFromR2ToTemp] only reads the bucket,
    removes no file and issues no unlink. *)
Lemma copy_to_temp_trace (env : Env) (objectKey p : string) (w w' : World) c :
  (s3_send_GetObject env objectKey;; pipeline env p;; ret p) w = (c, w') ->
  (∃ evs, trace w' = (trace w ++ evs)%list)
  ∧ bucket w' = bucket w
  ∧ unlinks w' = unlinks w
  ∧ files w ⊆ files w'.
Proof.
  unfold s3_send_GetObject, pipeline, bind, ret, emit. cbn.
  destruct (s3_get_fault env objectKey); cbn;
    [| destruct (bool_decide (objectKey ∈ bucket w)); cbn;
       [destruct (pipeline_result env p) as [|e' [|]]; cbn |]];
    intros [= <- <-]; cbn;
    (split; [rewrite <- ?app_assoc; eexists; reflexivity |]);
    (split; [reflexivity |]); (split; [reflexivity |]);
    first [reflexivity | apply union_subseteq_r].
Qed.

(** C9, as amended: when [downloadFromR2ToTemp] throws, its last call
    before the error leaves is the [unlink] of the temporary path.  That
    unlink is then in flight, with a callback that discards its error,
    and no file has been removed yet.  Once it has completed without
    fault no file is left at the path; if it fails the file stays as it
    was.  The bucket is as before. *)
Theorem downloadFromR2ToTemp_failure_requests_removal
    (env : Env) (objectKey : string) (w w' : World) (e : Thrown) :
  downloadFromR2ToTemp env objectKey w = (Throw e, w') ->
  (∃ evs, trace w'
     = (trace w ++ evs
          ++ [EUnlink (path_join (os_tmpdir env) objectKey)])%list)
  ∧ unlinks w'
    = (unlinks w ++ [(path_join (os_tmpdir env) objectKey, DiscardError)])%list
  ∧ bucket w' = bucket w
  ∧ files w ⊆ files w'
  ∧ (fs_unlink_fault env (path_join (os_tmpdir env) objectKey) = None ->
     path_join (os_tmpdir env) objectKey ∉ files (settle env w'))
  ∧ (is_Some (fs_unlink_fault env (path_join (os_tmpdir env) objectKey)) ->
     path_join (os_tmpdir env) objectKey ∈ files (settle env w')
     ↔ path_join (os_tmpdir env) objectKey ∈ files w').
Proof.
  unfold downloadFromR2ToTemp, try_catch. cbn zeta.
  set (p := path_join (os_tmpdir env) objectKey).
  destruct ((s3_send_GetObject env objectKey;; pipeline env p;; ret p) w)
    as [[a|e0] w1] eqn:Htry; [discriminate |].
  destruct (copy_to_temp_trace _ _ _ _ _ _ Htry)
    as ([evs Hevs] & Hb & Hu & Hf).
  rewrite unlink_and_rethrow. intros [= <- <-].
  cbn [trace unlinks bucket files log set_unlinks].
  split; [exists evs; rewrite Hevs, app_assoc; reflexivity |].
  split; [by rewrite Hu |]. split; [exact Hb |]. split; [exact Hf |].
  split.
  - intros Hok. eapply settle_removes_last; [| exact Hok]. cbn. reflexivity.
  - intros Hfault.
    exact (settle_keeps_on_fault env
             (set_unlinks (unlinks w1 ++ [(p, DiscardError)])
                (log (EUnlink p) w1)) p Hfault).
Qed.

Lemma downloadFromR2ToTemp_failure_requests_removal_witness :
  (∃ evs,
     trace (after (downloadFromR2ToTemp env_broken_copy
                     (objectName env_broken_copy)) world_staged)
     = (trace world_staged ++ evs
          ++ [EUnlink (path_join (os_tmpdir env_broken_copy)
                         (objectName env_broken_copy))])%list)
  ∧ unlinks (after (downloadFromR2ToTemp env_broken_copy
                      (objectName env_broken_copy)) world_staged)
    = (unlinks world_staged
         ++ [(path_join (os_tmpdir env_broken_copy)
                (objectName env_broken_copy), DiscardError)])%list
  ∧ bucket (after (downloadFromR2ToTemp env_broken_copy
                     (objectName env_broken_copy)) world_staged)
    = bucket world_staged
  ∧ files world_staged
    ⊆ files (after (downloadFromR2ToTemp env_broken_copy
                      (objectName env_broken_copy)) world_staged)
  ∧ (fs_unlink_fault env_broken_copy
       (path_join (os_tmpdir env_broken_copy) (objectName env_broken_copy))
     = None ->
     path_join (os_tmpdir env_broken_copy) (objectName env_broken_copy)
       ∉ files (settle env_broken_copy
                  (after (downloadFromR2ToTemp env_broken_copy
                            (objectName env_broken_copy)) world_staged)))
  ∧ (is_Some (fs_unlink_fault env_broken_copy
                (path_join (os_tmpdir env_broken_copy)
                   (objectName env_broken_copy))) ->
     path_join (os_tmpdir env_broken_copy) (objectName env_broken_copy)
       ∈ files (settle env_broken_copy
                  (after (downloadFromR2ToTemp env_broken_copy
                            (objectName env_broken_copy)) world_staged))
     ↔ path_join (os_tmpdir env_broken_copy) (objectName env_broken_copy)
         ∈ files (after (downloadFromR2ToTemp env_broken_copy
                           (objectName env_broken_copy)) world_staged)).
Proof.
  apply (downloadFromR2ToTemp_failure_requests_removal env_broken_copy
           (objectName env_broken_copy) world_staged _ broken_pipe).
  vm_compute. reflexivity.
Defined.

(** The claim of C9 without the amendment fails: the copy breaks half
    way, [downloadFromR2ToTemp] throws, and the partial file is on disk
    when the error leaves; its unlink is only in flight. *)
Lemma partial_file_left_when_error_leaves :
  fst (downloadFromR2ToTemp env_broken_copy (objectName env_broken_copy)
         world_staged)
    = Throw broken_pipe
  ∧ elements
      (files (after (downloadFromR2ToTemp env_broken_copy
                       (objectName env_broken_copy)) world_staged))
    = ["/tmp/video_1700000000000_9b2e7c41.mp4"]
  ∧ unlinks (after (downloadFromR2ToTemp env_broken_copy
                      (objectName env_broken_copy)) world_staged)
    = [("/tmp/video_1700000000000_9b2e7c41.mp4", DiscardError)].
Proof. repeat split; vm_compute; reflexivity. Qed.

(** ** The credential store *)

(** The callback route is the one place that writes a document: after a
    successful exchange the store holds the new tokens under the
    subject. *)
Lemma auth_callback_upserts
    (env : Env) (code : option string) (w : World)
    (c : gmap string TokenDoc) (tokens : Tokens) (payload : Payload) :
  oauth_getToken env code = inr tokens ->
  oauth_verifyIdToken env (tok_id_token tokens) = inr payload ->
  db w = Some c ->
  mongo_fault env = None ->
  db (after (auth_callback env code) w)
    = Some (<[payload_sub payload :=
               {| email := payload_email payload;
                  access_token := tok_access_token tokens;
                  refresh_token := tok_refresh_token tokens;
                  token_expiry := tok_expiry_date tokens |}]> c)
  ∧ performs is_store_write (events (auth_callback env code) w) = true.
Proof.
  intros Hget Hver Hdb Hm.
  unfold events, after, auth_callback, oauth2Client_getToken,
    oauth2Client_setCredentials, oauth2Client_verifyIdToken, db_collection,
    updateOne_upsert, res_json, res_status_json, try_catch, bind, ret, throw,
    emit.
  cbn. rewrite Hget. cbn. rewrite Hver. cbn. rewrite Hdb. cbn.
  rewrite Hm. cbn. rewrite Hdb. cbn. split; [reflexivity |].
  rewrite <- !app_assoc, drop_app_length. reflexivity.
Qed.

(** C3, as amended: an upload run never writes to the credential store,
    whatever the publish call refreshed.  The store is the same after
    the run as before it, no [updateOne] is issued, and a later lookup
    of any subject returns what it would have returned before. *)
Theorem upload_never_writes_credentials
    (env : Env) (req : UploadRequest) (w : World) :
  db (after (upload env req) w) = db w
  ∧ performs is_store_write (events (upload env req) w) = false
  ∧ ∀ (env' : Env) (sub : string),
      fst (findOne env' sub (after (upload env req) w))
      = fst (findOne env' sub w).
Proof.
  split; [apply upload_run |]. split.
  - run_cases env req w; unfold_events; reflexivity.
  - intros env' sub. unfold findOne, bind, emit. cbn.
    destruct (upload_run env req w) as (_ & -> & _).
    destruct (mongo_fault env'); reflexivity.
Qed.

(** The claim of C3 without the amendment fails: the stored token is
    expired, the publish call refreshes it and the run completes, yet
    the next lookup of the subject still returns the old token and
    expiry. *)
Lemma refreshed_token_not_persisted :
  token_expiry tokens_sub1 = Some 1699999000000
  ∧ 1699999000000 < date_now env_refresh
  ∧ ETokensRefreshed refreshed_credentials
      ∈ events (upload env_refresh req_a) world_a
  ∧ responses (events (upload env_refresh req_a) world_a)
    = [(200, success_body "vid42")]
  ∧ fst (findOne env_refresh "sub-1"
           (after (upload env_refresh req_a) world_a))
    = Normal (Some tokens_sub1)
  ∧ access_token tokens_sub1 = Some "ya29.old"
  ∧ cred_access_token refreshed_credentials = Some "ya29.new".
Proof.
  split; [reflexivity |]. split; [reflexivity |].
  split; [vm_compute; repeat constructor |].
  repeat split; vm_compute; reflexivity.
Qed.

(** ** Runs that fail after staging *)

(** C1 at Scenario C: the publish call is rejected after the object was
    staged and copied.  The run answers 500 without a [DeleteObject] or
    an [unlink]; the staged object and the temporary file are both still
    there. *)
Theorem upload_publish_failure_leaks :
  events (upload env_quota req_a) world_a
    = [EFindOne "sub-1"; EAxiosGet "https://example.com/a.mp4";
       EPutObject "video_1700000000000_9b2e7c41.mp4" (Some 12345);
       EGetObject "video_1700000000000_9b2e7c41.mp4";
       EPipeline "/tmp/video_1700000000000_9b2e7c41.mp4";
       EVideosInsert (userAuth_credentials tokens_sub1)
         (insert_params req_a "/tmp/video_1700000000000_9b2e7c41.mp4");
       EConsoleError "Upload error:" quota_exceeded;
       ERespond 500
         [("error", message quota_exceeded); ("details", "quotaExceeded")]]
  ∧ elements (bucket (after (upload env_quota req_a) world_a))
    = ["video_1700000000000_9b2e7c41.mp4"]
  ∧ elements (files (after (upload env_quota req_a) world_a))
    = ["/tmp/video_1700000000000_9b2e7c41.mp4"].
Proof. repeat split; vm_compute; reflexivity. Qed.

(** C2 at a failing delete: the publish call returned [vid42], the
    delete of the staged object is rejected, and the run answers 500
    with the message of that rejection.  The [unlink] that follows the
    delete in the handler is not reached. *)
Theorem upload_delete_failure_overrides_success :
  insert_result (publish_outcome env_delete_fails req_a tokens_sub1)
    = inr "vid42"
  ∧ events (upload env_delete_fails req_a) world_a
    = [EFindOne "sub-1"; EAxiosGet "https://example.com/a.mp4";
       EPutObject "video_1700000000000_9b2e7c41.mp4" (Some 12345);
       EGetObject "video_1700000000000_9b2e7c41.mp4";
       EPipeline "/tmp/video_1700000000000_9b2e7c41.mp4";
       EVideosInsert (userAuth_credentials tokens_sub1)
         (insert_params req_a "/tmp/video_1700000000000_9b2e7c41.mp4");
       EDeleteObject "video_1700000000000_9b2e7c41.mp4";
       EConsoleError "Upload error:" slow_down;
       ERespond 500 [("error", "Please reduce your request rate.")]]
  ∧ elements (bucket (after (upload env_delete_fails req_a) world_a))
    = ["video_1700000000000_9b2e7c41.mp4"]
  ∧ elements (files (after (upload env_delete_fails req_a) world_a))
    = ["/tmp/video_1700000000000_9b2e7c41.mp4"].
Proof. repeat split; vm_compute; reflexivity. Qed.



(** ** More on upload runs *)

Lemma snoc_cons {A} (x y : A) (l calls : list A) :
  l = (calls ++ [y])%list -> x :: l = ((x :: calls) ++ [y])%list.
Proof. intros ->. reflexivity. Qed.

(** Splits an explicit list into its last element and what precedes. *)
Ltac split_last :=
  repeat first [exact (eq_refl : [_] = ([] ++ [_])%list) | eapply snoc_cons].

(** X1: a run of the upload handler answers at most once, and an
    answer is its last act, with status 200, 400, 401 or 500.  It answers
    exactly once unless the source replied with an error status: then
    the error carries the response stream, the body of the 500 cannot
    be serialised, and the handler rejects without having answered. *)
Theorem upload_responds_last (env : Env) (req : UploadRequest) (w : World) :
  (∃ calls status body,
     events (upload env req) w = (calls ++ [ERespond status body])%list
     ∧ responses calls = []
     ∧ status ∈ [200; 400; 401; 500]
     ∧ fst (upload env req w) = Normal tt)
  ∨ (∃ userData msg,
       authenticated env req w userData
       ∧ axios_response env (str (video_url req)) = inl (ErrorStatus msg)
       ∧ responses (events (upload env req) w) = []
       ∧ fst (upload env req w) = Throw not_serialisable).
Proof.
  run_cases env req w;
    first [ right; eexists _, _;
            (split; [eassumption |]); (split; [eassumption |]);
            split; reflexivity
          | left; unfold_events;
            (eexists _, _, _; split; [split_last |]);
            (split; [reflexivity |]); (split; [| reflexivity]);
            repeat constructor ].
Qed.

(** X3: the calls of a run come in the order of the pipeline.  A run
    that publishes has staged, a run that stages has fetched, a run that
    fetches has looked the user up, and a run that deletes the staged
    object has published. *)
Theorem upload_call_order (env : Env) (req : UploadRequest) (w : World) :
  let evs := events (upload env req) w in
  implb (performs is_delete evs) (performs is_publish evs) = true
  ∧ implb (performs is_publish evs) (performs is_materialize evs) = true
  ∧ implb (performs is_materialize evs) (performs is_stage evs) = true
  ∧ implb (performs is_stage evs) (performs is_fetch evs) = true
  ∧ implb (performs is_fetch evs) (performs is_lookup evs) = true.
Proof.
  cbn zeta. run_cases env req w; unfold_events; repeat split.
Qed.

(** X4: no call is repeated within a run.  The lookup, the fetch, the
    stage, the read-back, the publish and the delete are each issued at
    most once, whatever they answer. *)
Theorem upload_never_retries (env : Env) (req : UploadRequest) (w : World) :
  let evs := events (upload env req) w in
  (count_of is_lookup evs ≤ 1)%nat
  ∧ (count_of is_fetch evs ≤ 1)%nat
  ∧ (count_of is_stage evs ≤ 1)%nat
  ∧ (count_of is_materialize evs ≤ 1)%nat
  ∧ (count_of is_publish evs ≤ 1)%nat
  ∧ (count_of is_delete evs ≤ 1)%nat.
Proof.
  cbn zeta. run_cases env req w; unfold_events;
    unfold count_of; cbn; repeat split; lia.
Qed.



(** X2: when the request is authenticated and every call goes well, the
    unlink of the temporary file included, the run answers 200 with the
    id the publish call returned; the staged object is out of the bucket
    when it answers; the temporary file is still on disk then, its
    unlink being in flight, and is gone once the unlink has completed. *)
Theorem upload_completes_with_id
    (env : Env) (req : UploadRequest) (w : World)
    (userData : TokenDoc) (r : AxiosResponse) (id : string) :
  authenticated env req w userData ->
  fetched env req r ->
  staged env ->
  materialized env ->
  insert_result (publish_outcome env req userData) = inr id ->
  s3_delete_fault env (objectName env) = None ->
  fs_unlink_fault env (tempFilePath env) = None ->
  events (upload env req) w
    = (upto_publish env req r userData
         ++ [EDeleteObject (objectName env); EUnlink (tempFilePath env);
             ERespond 200
               [("videoId", id); ("message", "Video uploaded successfully");
                ("url", ("https://youtu.be/" ++ id)%string)]])%list
  ∧ (objectName env ∉ bucket (after (upload env req) w))
  ∧ tempFilePath env ∈ files (after (upload env req) w)
  ∧ (tempFilePath env ∉ files (settle env (after (upload env req) w))).
Proof.
  intros Ha Hf Hs Hm Hins Hdel Hunlink.
  assert (Hflight : issued (upload env req) w
            = [(tempFilePath env, LogError "Error deleting temp file:")]).
  { run_cases env req w; same_run; reflexivity. }
  split; [| split; [| split]].
  - run_cases env req w; same_run; reflexivity.
  - run_cases env req w; same_run; apply not_elem_of_removed.
  - run_cases env req w; same_run; apply elem_of_added.
  - eapply settle_removes_last; [| exact Hunlink].
    rewrite unlinks_after_upload, Hflight. reflexivity.
Qed.

(** The request of scenario A is authenticated in every environment
    whose store answers. *)
Lemma authenticated_in (env : Env) :
  mongo_fault env = None -> authenticated env req_a world_a tokens_sub1.
Proof.
  intros Hm. split; [reflexivity |]. split; [reflexivity |].
  split; [exact Hm |].
  exists {["sub-1" := tokens_sub1]}. split; reflexivity.
Defined.

Lemma upload_completes_with_id_witness :
  events (upload env_a req_a) world_a
    = (upto_publish env_a req_a response_12345
         tokens_sub1
         ++ [EDeleteObject (objectName env_a); EUnlink (tempFilePath env_a);
             ERespond 200
               [("videoId", "vid42");
                ("message", "Video uploaded successfully");
                ("url", ("https://youtu.be/" ++ "vid42")%string)]])%list
  ∧ (objectName env_a ∉ bucket (after (upload env_a req_a) world_a))
  ∧ tempFilePath env_a ∈ files (after (upload env_a req_a) world_a)
  ∧ (tempFilePath env_a
       ∉ files (settle env_a (after (upload env_a req_a) world_a))).
Proof.
  apply (upload_completes_with_id env_a req_a world_a tokens_sub1
           response_12345 "vid42").
  - exact (authenticated_in env_a eq_refl).
  - split; reflexivity.
  - reflexivity.
  - split; reflexivity.
  - reflexivity.
  - reflexivity.
  - reflexivity.
Defined.

(** X6: when the stage call is rejected, the run answers 500 with the
    rejection and stops: the staged object is not read back, nothing is
    published or deleted, and bucket and files are as before. *)
Theorem upload_stage_failure
    (env : Env) (req : UploadRequest) (w : World)
    (userData : TokenDoc) (r : AxiosResponse) (e : JsError) :
  authenticated env req w userData ->
  fetched env req r ->
  s3_put_fault env (objectName env) = Some e ->
  events (upload env req) w
    = (upto_stage env req r
         ++ [EConsoleError "Upload error:" e; ERespond 500 (error_body e)])%list
  ∧ bucket (after (upload env req) w) = bucket w
  ∧ files (after (upload env req) w) = files w.
Proof.
  intros Ha Hf Hput.
  run_cases env req w; same_run.
  repeat split.
Qed.

Lemma upload_stage_failure_witness :
  events (upload env_put_fails req_a) world_a
    = (upto_stage env_put_fails req_a
         response_12345
         ++ [EConsoleError "Upload error:" access_denied;
             ERespond 500 (error_body access_denied)])%list
  ∧ bucket (after (upload env_put_fails req_a) world_a) = bucket world_a
  ∧ files (after (upload env_put_fails req_a) world_a) = files world_a.
Proof.
  apply (upload_stage_failure env_put_fails req_a world_a tokens_sub1
           response_12345 access_denied).
  - exact (authenticated_in env_put_fails eq_refl).
  - split; reflexivity.
  - reflexivity.
Defined.

(** X7: when the staged object cannot be read back or copied to the
    temporary file, the run answers 500 without publishing or deleting.
    The staged object stays in the bucket; the unlink of the temporary
    path is in flight when the run answers, and once it has completed
    without fault no file is left at that path. *)
Theorem upload_materialize_failure
    (env : Env) (req : UploadRequest) (w : World)
    (userData : TokenDoc) (r : AxiosResponse) (e : JsError) :
  authenticated env req w userData ->
  fetched env req r ->
  staged env ->
  s3_get_fault env (objectName env) = Some e
  ∨ (s3_get_fault env (objectName env) = None
     ∧ ∃ partial, pipeline_result env (tempFilePath env) = PipeBroken e partial) ->
  responses (events (upload env req) w) = [(500, error_body e)]
  ∧ performs is_publish (events (upload env req) w) = false
  ∧ performs is_delete (events (upload env req) w) = false
  ∧ objectName env ∈ bucket (after (upload env req) w)
  ∧ issued (upload env req) w = [(tempFilePath env, DiscardError)]
  ∧ files w ⊆ files (after (upload env req) w)
  ∧ (fs_unlink_fault env (tempFilePath env) = None ->
     tempFilePath env ∉ files (settle env (after (upload env req) w))).
Proof.
  intros Ha Hf Hs Hfail.
  assert (Hflight : issued (upload env req) w
            = [(tempFilePath env, DiscardError)]).
  { destruct Hfail as [Hget | [Hget [partial Hpipe]]];
      run_cases env req w; same_run; reflexivity. }
  split; [| split; [| split; [| split; [| split; [exact Hflight | split]]]]].
  - destruct Hfail as [Hget | [Hget [partial Hpipe]]];
      run_cases env req w; same_run; reflexivity.
  - destruct Hfail as [Hget | [Hget [partial Hpipe]]];
      run_cases env req w; same_run; reflexivity.
  - destruct Hfail as [Hget | [Hget [partial Hpipe]]];
      run_cases env req w; same_run; reflexivity.
  - destruct Hfail as [Hget | [Hget [partial Hpipe]]];
      run_cases env req w; same_run; apply elem_of_added.
  - destruct Hfail as [Hget | [Hget [partial Hpipe]]];
      run_cases env req w; same_run;
      try match goal with |- context [if ?b then _ else _] => destruct b end;
      first [reflexivity | apply union_subseteq_r].
  - intros Hunlink. eapply settle_removes_last; [| exact Hunlink].
    rewrite unlinks_after_upload, Hflight. reflexivity.
Qed.

Lemma upload_materialize_failure_witness :
  responses (events (upload env_broken_copy req_a) world_a)
    = [(500, error_body broken_pipe)]
  ∧ performs is_publish (events (upload env_broken_copy req_a) world_a) = false
  ∧ performs is_delete (events (upload env_broken_copy req_a) world_a) = false
  ∧ objectName env_broken_copy
      ∈ bucket (after (upload env_broken_copy req_a) world_a)
  ∧ issued (upload env_broken_copy req_a) world_a
    = [(tempFilePath env_broken_copy, DiscardError)]
  ∧ files world_a ⊆ files (after (upload env_broken_copy req_a) world_a)
  ∧ (fs_unlink_fault env_broken_copy (tempFilePath env_broken_copy) = None ->
     tempFilePath env_broken_copy
       ∉ files (settle env_broken_copy
                  (after (upload env_broken_copy req_a) world_a))).
Proof.
  apply (upload_materialize_failure env_broken_copy req_a world_a tokens_sub1
           response_12345 broken_pipe).
  - exact (authenticated_in env_broken_copy eq_refl).
  - split; reflexivity.
  - reflexivity.
  - right. split; [reflexivity |]. exists true. reflexivity.
Defined.



(** X10: when the request to the source fails without a response, the
    run answers 500 with the message of the failure and no [details].
    When the source replies with an error status, the handler logs the
    error and rejects without answering, the response stream under
    [details] not being serialisable.  Either way nothing is staged and
    bucket and files are as before. *)
Theorem upload_fetch_failure
    (env : Env) (req : UploadRequest) (w : World)
    (userData : TokenDoc) (err : AxiosError) :
  authenticated env req w userData ->
  axios_response env (str (video_url req)) = inl err ->
  match err with
  | NoResponse msg =>
      responses (events (upload env req) w) = [(500, [("error", msg)])]
      ∧ fst (upload env req w) = Normal tt
  | ErrorStatus msg =>
      events (upload env req) w
      = [EFindOne (str (query_userId req)); EAxiosGet (str (video_url req));
         EConsoleError "Upload error:" (StreamResponseError msg)]
      ∧ fst (upload env req w) = Throw not_serialisable
  end
  ∧ performs is_stage (events (upload env req) w) = false
  ∧ bucket (after (upload env req) w) = bucket w
  ∧ files (after (upload env req) w) = files w.
Proof.
  intros Ha Hax.
  destruct err as [msg | msg]; run_cases env req w; same_run; repeat split.
Qed.

Lemma upload_fetch_failure_witness :
  (events (upload env_fetch_fails req_a) world_a
   = [EFindOne (str (query_userId req_a)); EAxiosGet (str (video_url req_a));
      EConsoleError "Upload error:"
        (StreamResponseError "Request failed with status code 429")]
   ∧ fst (upload env_fetch_fails req_a world_a) = Throw not_serialisable)
  ∧ performs is_stage (events (upload env_fetch_fails req_a) world_a) = false
  ∧ bucket (after (upload env_fetch_fails req_a) world_a) = bucket world_a
  ∧ files (after (upload env_fetch_fails req_a) world_a) = files world_a.
Proof.
  apply (upload_fetch_failure env_fetch_fails req_a world_a tokens_sub1
           rate_limited).
  - exact (authenticated_in env_fetch_fails eq_refl).
  - reflexivity.
Defined.

(** The other case of the fetch failure, on a source that cannot be
    reached: the error has no response and the run answers 500 with its
    message alone. *)
Lemma transport_failure_is_answered :
  events (upload env_unreachable req_a) world_a
  = [EFindOne "sub-1"; EAxiosGet "https://example.com/a.mp4";
     EConsoleError "Upload error:"
       (Error "connect ECONNREFUSED 203.0.113.7:443");
     ERespond 500 [("error", "connect ECONNREFUSED 203.0.113.7:443")]]
  ∧ fst (upload env_unreachable req_a world_a) = Normal tt.
Proof. split; reflexivity. Qed.

(** X11: when the credentials cannot be looked up, because [db] is not
    assigned yet or because the lookup is rejected, a request that
    passed both checks is answered 500; the source is not fetched and
    nothing is staged or published. *)
Theorem upload_lookup_unavailable
    (env : Env) (req : UploadRequest) (w : World) :
  js_truthy (query_userId req) = true ->
  js_truthy (video_url req) = true ->
  db w = None ∨ is_Some (mongo_fault env) ->
  (∃ e, responses (events (upload env req) w) = [(500, error_body e)]
        ∧ (db w = None -> e = type_error_db
                          ∧ performs is_lookup (events (upload env req) w)
                            = false)
        ∧ (is_Some (db w) -> mongo_fault env = Some e))
  ∧ performs is_fetch (events (upload env req) w) = false
  ∧ performs is_stage (events (upload env req) w) = false
  ∧ performs is_publish (events (upload env req) w) = false
  ∧ bucket (after (upload env req) w) = bucket w
  ∧ files (after (upload env req) w) = files w.
Proof.
  intros Hu Hv Hdown.
  apply negb_true_iff in Hu. apply negb_true_iff in Hv.
  run_cases env req w; same_run;
    try (destruct Hdown as [Hd | [e' He']]; same_run; fail).
  - split; [| repeat split].
    exists type_error_db. split; [reflexivity |].
    split; [intros _; split; reflexivity |].
    intros [c Hc]. congruence.
  - split; [| repeat split].
    exists e. split; [reflexivity |].
    split; [congruence | intros _; assumption].
Qed.

Lemma upload_lookup_unavailable_witness :
  (∃ e, responses (events (upload env_a req_a) world_unconnected)
          = [(500, error_body e)]
        ∧ (db world_unconnected = None ->
           e = type_error_db
           ∧ performs is_lookup (events (upload env_a req_a) world_unconnected)
             = false)
        ∧ (is_Some (db world_unconnected) -> mongo_fault env_a = Some e))
  ∧ performs is_fetch (events (upload env_a req_a) world_unconnected) = false
  ∧ performs is_stage (events (upload env_a req_a) world_unconnected) = false
  ∧ performs is_publish (events (upload env_a req_a) world_unconnected) = false
  ∧ bucket (after (upload env_a req_a) world_unconnected)
    = bucket world_unconnected
  ∧ files (after (upload env_a req_a) world_unconnected)
    = files world_unconnected.
Proof.
  apply (upload_lookup_unavailable env_a req_a world_unconnected).
  - reflexivity.
  - reflexivity.
  - left. reflexivity.
Defined.

(** X12: a run publishes only on behalf of the user it looked up.  The
    publish call carries the tokens stored under the [userId] of the
    query, the metadata of the request body, a [publishAt] only when
    [publish_at] is given and not empty, and the temporary file of this
    run as its media. *)
Theorem upload_publishes_for_stored_user
    (env : Env) (req : UploadRequest) (w : World)
    (auth : Credentials) (params : VideoInsert) :
  EVideosInsert auth params ∈ events (upload env req) w ->
  ∃ userData,
    (db w ≫= fun c : gmap string TokenDoc => c !! str (query_userId req))
      = Some userData
    ∧ auth = {| cred_access_token := access_token userData;
                cred_refresh_token := refresh_token userData;
                cred_expiry_date := token_expiry userData |}
    ∧ part params = "snippet,status"
    ∧ snippet_title params = title req
    ∧ snippet_description params = description req
    ∧ snippet_tags params = tags req
    ∧ snippet_categoryId params = category_id req
    ∧ status_privacyStatus params = privacy_status req
    ∧ status_publishAt params
      = (if js_not (publish_at req) then None else publish_at req)
    ∧ media_body params = path_join (os_tmpdir env) (objectName env).
Proof.
  intros Hin.
  run_cases env req w; unfold_events;
    repeat match goal with
           | H : _ ∈ _ :: _ |- _ =>
               apply elem_of_cons in H as [H | H]; [try discriminate H |]
           | H : _ ∈ [] |- _ => apply elem_of_nil in H; destruct H
           end;
    injection Hin as -> ->;
    match goal with
    | H : authenticated _ _ _ ?u |- _ =>
        destruct H as (_ & _ & _ & ? & -> & Hstored); exists u
    end;
    (split; [exact Hstored | repeat split]);
    unfold insert_params, js_truthy; cbn;
    destruct (js_not (publish_at req)); reflexivity.
Qed.

Lemma upload_publishes_for_stored_user_witness :
  ∃ userData,
    (db world_a ≫= fun c : gmap string TokenDoc => c !! str (query_userId req_a))
      = Some userData
    ∧ userAuth_credentials tokens_sub1
      = {| cred_access_token := access_token userData;
           cred_refresh_token := refresh_token userData;
           cred_expiry_date := token_expiry userData |}
    ∧ part (insert_params req_a (tempFilePath env_a)) = "snippet,status"
    ∧ snippet_title (insert_params req_a (tempFilePath env_a)) = title req_a
    ∧ snippet_description (insert_params req_a (tempFilePath env_a))
      = description req_a
    ∧ snippet_tags (insert_params req_a (tempFilePath env_a)) = tags req_a
    ∧ snippet_categoryId (insert_params req_a (tempFilePath env_a))
      = category_id req_a
    ∧ status_privacyStatus (insert_params req_a (tempFilePath env_a))
      = privacy_status req_a
    ∧ status_publishAt (insert_params req_a (tempFilePath env_a))
      = (if js_not (publish_at req_a) then None else publish_at req_a)
    ∧ media_body (insert_params req_a (tempFilePath env_a))
      = path_join (os_tmpdir env_a) (objectName env_a).
Proof.
  apply (upload_publishes_for_stored_user env_a req_a world_a).
  vm_compute. repeat constructor.
Defined.

(** X22: the unlink that follows a successful run is not awaited.  When
    it fails, the run has already answered 200; the failure is logged
    under "Error deleting temp file:" when the callback runs, and the
    temporary file stays on disk. *)
Theorem upload_unlink_failure_is_logged
    (env : Env) (req : UploadRequest) (w : World)
    (userData : TokenDoc) (r : AxiosResponse) (id : string) (e : JsError) :
  authenticated env req w userData ->
  fetched env req r ->
  staged env ->
  materialized env ->
  insert_result (publish_outcome env req userData) = inr id ->
  s3_delete_fault env (objectName env) = None ->
  fs_unlink_fault env (tempFilePath env) = Some e ->
  unlinks w = [] ->
  responses (events (upload env req) w)
    = [(200, [("videoId", id); ("message", "Video uploaded successfully");
              ("url", ("https://youtu.be/" ++ id)%string)])]
  ∧ trace (settle env (after (upload env req) w))
    = (trace (after (upload env req) w)
         ++ [EConsoleError "Error deleting temp file:" e])%list
  ∧ tempFilePath env ∈ files (settle env (after (upload env req) w)).
Proof.
  intros Ha Hf Hs Hm Hins Hdel Hunlink Hnone.
  assert (Hflight : unlinks (after (upload env req) w)
            = [(tempFilePath env, LogError "Error deleting temp file:")]).
  { rewrite unlinks_after_upload, Hnone.
    run_cases env req w; same_run; reflexivity. }
  assert (Hfile : tempFilePath env ∈ files (after (upload env req) w)).
  { run_cases env req w; same_run; apply elem_of_added. }
  split; [| split].
  - run_cases env req w; same_run; unfold_events; reflexivity.
  - unfold settle. rewrite Hflight. cbn [foldl].
    unfold complete_unlink. cbn [fst snd]. rewrite Hunlink. reflexivity.
  - apply settle_keeps_on_fault; [rewrite Hunlink; eauto | exact Hfile].
Qed.

Lemma upload_unlink_failure_is_logged_witness :
  responses (events (upload env_unlink_fails req_a) world_a)
    = [(200, [("videoId", "vid42"); ("message", "Video uploaded successfully");
              ("url", ("https://youtu.be/" ++ "vid42")%string)])]
  ∧ trace (settle env_unlink_fails (after (upload env_unlink_fails req_a) world_a))
    = (trace (after (upload env_unlink_fails req_a) world_a)
         ++ [EConsoleError "Error deleting temp file:" permission_denied])%list
  ∧ tempFilePath env_unlink_fails
      ∈ files (settle env_unlink_fails
                 (after (upload env_unlink_fails req_a) world_a)).
Proof.
  apply (upload_unlink_failure_is_logged env_unlink_fails req_a world_a
           tokens_sub1 response_12345 "vid42" permission_denied).
  - exact (authenticated_in env_unlink_fails eq_refl).
  - split; reflexivity.
  - reflexivity.
  - split; reflexivity.
  - reflexivity.
  - reflexivity.
  - reflexivity.
  - reflexivity.
Defined.

(** X23: a request that arrives without a parsed body is answered 500
    with the message of the failed destructuring of [req.body], whatever
    its [userId]; the run makes no outside call and changes nothing
    else. *)
Theorem upload_unparsed_body (env : Env) (req : UploadRequest) (w : World) :
  req_body req = None ->
  events (upload env req) w
    = [EConsoleError "Upload error:" cannot_destructure;
       ERespond 500 [("error", message cannot_destructure)]]
  ∧ fst (upload env req w) = Normal tt
  ∧ bucket (after (upload env req) w) = bucket w
  ∧ files (after (upload env req) w) = files w
  ∧ issued (upload env req) w = [].
Proof.
  intros Hbody.
  run_cases env req w;
    try match goal with
        | H : is_Some (req_body _) |- _ =>
            rewrite Hbody in H; destruct H; discriminate
        end;
    same_run; repeat split.
Qed.

Lemma upload_unparsed_body_witness :
  events (upload env_a (request_without_body (Some "sub-1"))) world_a
    = [EConsoleError "Upload error:" cannot_destructure;
       ERespond 500 [("error", message cannot_destructure)]]
  ∧ fst (upload env_a (request_without_body (Some "sub-1")) world_a)
    = Normal tt
  ∧ bucket (after (upload env_a (request_without_body (Some "sub-1"))) world_a)
    = bucket world_a
  ∧ files (after (upload env_a (request_without_body (Some "sub-1"))) world_a)
    = files world_a
  ∧ issued (upload env_a (request_without_body (Some "sub-1"))) world_a = [].
Proof.
  apply (upload_unparsed_body env_a (request_without_body (Some "sub-1"))
           world_a).
  reflexivity.
Defined.

(** ** The declared length and the object key *)

Lemma digit_of_pretty_N_char (d : N) :
  (d < 10)%N -> digit_of (pretty_N_char d) = Some (Z.of_N d).
Proof.
  intros Hd.
  assert (d = 0 ∨ d = 1 ∨ d = 2 ∨ d = 3 ∨ d = 4 ∨ d = 5 ∨ d = 6 ∨ d = 7
          ∨ d = 8 ∨ d = 9)%N as Hcases by lia.
  repeat destruct Hcases as [-> | Hcases]; try subst d; reflexivity.
Qed.

(** Reading the digits that [pretty] wrote in front of [s] shifts the
    accumulator by them. *)
Lemma read_digits_pretty_N_go (x : N) (s : string) (acc : Z) (seen : bool) :
  ∃ k : nat,
    read_digits (pretty_N_go x s) acc seen
    = read_digits s (acc * 10 ^ Z.of_nat k + Z.of_N x)
        (seen || bool_decide (0 < x)%N).
Proof.
  revert s acc seen.
  induction (N.lt_wf_0 x) as [x _ IH]; intros s acc seen.
  destruct (decide (x = 0)%N) as [-> | Hx].
  - exists 0%nat. rewrite pretty_N_go_0.
    rewrite bool_decide_false by lia.
    rewrite orb_false_r. f_equal.
    change (Z.of_nat 0) with 0. rewrite Z.pow_0_r. change (Z.of_N 0) with 0.
    lia.
  - rewrite pretty_N_go_step by lia.
    destruct (IH (x `div` 10)%N) with
      (s := String (pretty_N_char (x `mod` 10)) s) (acc := acc) (seen := seen)
      as [k Hk].
    { apply N.div_lt; lia. }
    exists (S k). rewrite Hk. cbn [read_digits].
    rewrite digit_of_pretty_N_char by (apply N.mod_lt; lia).
    rewrite (bool_decide_true (0 < x)%N) by lia. rewrite orb_true_r.
    f_equal.
    rewrite Nat2Z.inj_succ, Z.pow_succ_r by lia.
    rewrite (N.div_mod x 10) at 3 by lia.
    rewrite N2Z.inj_add, N2Z.inj_mul. change (Z.of_N 10) with 10. lia.
Qed.

(** A number written by [pretty] starts with a digit. *)
Lemma pretty_N_go_head (x : N) (s : string) :
  (0 < x)%N ->
  ∃ d r, (d < 10)%N ∧ pretty_N_go x s = String (pretty_N_char d) r.
Proof.
  revert s. induction (N.lt_wf_0 x) as [x _ IH]; intros s Hx.
  rewrite pretty_N_go_step by lia.
  destruct (decide (x `div` 10 = 0)%N) as [Hz | Hnz].
  - rewrite Hz, pretty_N_go_0. eexists _, _. split; [| reflexivity].
    apply N.mod_lt; lia.
  - apply IH; [apply N.div_lt; lia | apply N.neq_0_lt_0, Hnz].
Qed.

Lemma is_digit_pretty_N_char (d : N) :
  (d < 10)%N -> is_digit (pretty_N_char d) = true.
Proof.
  intros Hd. unfold is_digit. rewrite digit_of_pretty_N_char by exact Hd.
  reflexivity.
Qed.

Lemma parseInt_pretty_pos (p : positive) :
  read_digits (pretty (Npos p)) 0 false = Some (Zpos p)
  ∧ parseInt (pretty (Npos p)) = Some (to_double (Zpos p)).
Proof.
  assert (Hread : read_digits (pretty (Npos p)) 0 false = Some (Zpos p)).
  { unfold pretty, pretty_N. rewrite decide_False by discriminate.
    destruct (read_digits_pretty_N_go (Npos p) "" 0 false) as [k ->].
    reflexivity. }
  split; [exact Hread |].
  change (Some (to_double (Zpos p))) with (to_double <$> Some (Zpos p)).
  rewrite <- Hread. unfold pretty, pretty_N.
  rewrite decide_False by discriminate.
  destruct (pretty_N_go_head (Npos p) "") as (d & r & Hd & ->); [lia |].
  apply parseInt_digit_first, is_digit_pretty_N_char, Hd.
Qed.

(** [parseInt(String(n), 10)] is the Number nearest to [n]. *)
Lemma parseInt_pretty (n : Z) : parseInt (pretty n) = Some (to_double n).
Proof.
  destruct n as [| p | p].
  - reflexivity.
  - apply parseInt_pretty_pos.
  - change (pretty (Zneg p)) with (String "-" (pretty (Npos p))).
    change (parseInt (String "-" (pretty (Npos p))))
      with (to_double <$> (Z.opp <$> read_digits (pretty (Npos p)) 0 false)).
    destruct (parseInt_pretty_pos p) as [-> _]. reflexivity.
Qed.

Lemma pretty_Z_nonempty (n : Z) : pretty n ≠ "".
Proof.
  intros H. pose proof (parseInt_pretty n) as Hp. rewrite H in Hp.
  discriminate Hp.
Qed.

(** Integers below 2^53 in magnitude are Numbers. *)
Lemma to_double_exact (n : Z) : Z.abs n < 2 ^ 53 -> to_double n = n.
Proof.
  intros Hn. unfold to_double. cbv zeta.
  destruct (Z.ltb_spec (Z.abs n) (2 ^ 53)) as [_ | Hge]; [reflexivity | lia].
Qed.

(** Above 2^53 the odd integers are not Numbers; a tie goes to the even
    significand. *)
Lemma to_double_rounds :
  to_double 9007199254740993 = 9007199254740992
  ∧ to_double 9007199254740995 = 9007199254740996.
Proof. split; reflexivity. Qed.

(** X13: a [content-length] header that is the decimal writing of [n]
    reaches the stage call as the Number nearest to [n], which is [n]
    itself below 2^53; such an [n] is not negative, a header with a sign
    being no header the source can send. *)
Theorem upload_stages_declared_length
    (env : Env) (req : UploadRequest) (w : World)
    (userData : TokenDoc) (r : AxiosResponse) (n : Z) :
  authenticated env req w userData ->
  axios_response env (str (video_url req)) = inr r ->
  headers_content_length r = Some (pretty n) ->
  0 ≤ n
  ∧ EPutObject (objectName env) (Some (to_double n))
      ∈ events (upload env req) w
  ∧ (n < 2 ^ 53 -> to_double n = n).
Proof.
  intros Ha Hax Hh.
  assert (Hpos : 0 ≤ n).
  { pose proof (content_length_wf r) as Hwf. rewrite Hh in Hwf.
    destruct n as [| p | p]; [lia | lia |].
    exfalso. apply Is_true_true in Hwf.
    change (pretty (Zneg p)) with (String "-" (pretty (Npos p))) in Hwf.
    cbn in Hwf. rewrite andb_false_r in Hwf. discriminate Hwf. }
  split; [exact Hpos |]. split; [| intros Hn; apply to_double_exact; lia].
  assert (Hlen : js_not (headers_content_length r) = false).
  { rewrite Hh. cbn. apply bool_decide_false, pretty_Z_nonempty. }
  assert (Hput : parseInt (str (headers_content_length r))
                 = Some (to_double n)).
  { rewrite Hh. apply parseInt_pretty. }
  clear Hh Hpos.
  run_cases env req w; same_run;
    unfold upto_publish, upto_materialize, upto_stage in *;
    rewrite ?Hput; unfold_events; repeat constructor.
Qed.

Lemma upload_stages_declared_length_witness :
  0 ≤ 12345
  ∧ EPutObject (objectName env_a) (Some (to_double 12345))
      ∈ events (upload env_a req_a) world_a
  ∧ (12345 < 2 ^ 53 -> to_double 12345 = 12345).
Proof.
  apply (upload_stages_declared_length env_a req_a world_a tokens_sub1
           response_12345 12345).
  - exact (authenticated_in env_a eq_refl).
  - reflexivity.
  - reflexivity.
Defined.

Lemma pretty_N_char_no_underscore (d : N) : pretty_N_char d ≠ "_"%char.
Proof. unfold pretty_N_char. repeat case_match; discriminate. Qed.

Lemma pretty_N_go_no_underscore (x : N) (s : string) :
  no_underscore s -> no_underscore (pretty_N_go x s).
Proof.
  revert s. induction (N.lt_wf_0 x) as [x _ IH]; intros s Hs.
  destruct (decide (x = 0)%N) as [-> | Hx].
  - rewrite pretty_N_go_0. exact Hs.
  - rewrite pretty_N_go_step by lia.
    apply IH; [apply N.div_lt; lia |].
    split; [apply pretty_N_char_no_underscore | exact Hs].
Qed.

Lemma pretty_Z_no_underscore (n : Z) : no_underscore (pretty n).
Proof.
  assert (Hpos : ∀ p, no_underscore (pretty (Npos p))).
  { intros p. unfold pretty, pretty_N. rewrite decide_False by discriminate.
    apply pretty_N_go_no_underscore. exact I. }
  destruct n as [| p | p].
  - repeat split; discriminate.
  - apply Hpos.
  - change (pretty (Zneg p)) with (String "-" (pretty (Npos p))).
    split; [discriminate | apply Hpos].
Qed.

(** Two strings without underscore that are followed by one end at the
    same place. *)
Lemma split_at_underscore (a a' b b' : string) :
  no_underscore a -> no_underscore a' ->
  a ++ String "_" b = a' ++ String "_" b' -> a = a' ∧ b = b'.
Proof.
  revert a'. induction a as [| c a IH]; intros [| c' a'] Ha Ha' Heq;
    cbn in *.
  - injection Heq as ->. split; reflexivity.
  - injection Heq as <- _. destruct Ha' as [Hc _]. congruence.
  - injection Heq as -> _. destruct Ha as [Hc _]. congruence.
  - injection Heq as -> Heq. destruct Ha as [_ Ha]. destruct Ha' as [_ Ha'].
    destruct (IH a' Ha Ha' Heq) as [-> ->]. split; reflexivity.
Qed.

Lemma length_append (s t : string) :
  String.length (s ++ t) = (String.length s + String.length t)%nat.
Proof.
  induction s as [| c s IH]; [reflexivity |].
  change (S (String.length (s ++ t))
          = S (String.length s + String.length t)).
  f_equal. exact IH.
Qed.

Lemma append_inv_tail (s1 s2 t : string) : s1 ++ t = s2 ++ t -> s1 = s2.
Proof.
  revert s2. induction s1 as [| c s1 IH]; intros [| c' s2] Heq.
  - reflexivity.
  - apply (f_equal String.length) in Heq.
    rewrite !length_append in Heq. cbn in Heq. lia.
  - apply (f_equal String.length) in Heq.
    rewrite !length_append in Heq. cbn in Heq. lia.
  - change (String c (s1 ++ t) = String c' (s2 ++ t)) in Heq.
    injection Heq as -> Heq. f_equal. apply IH, Heq.
Qed.

(** X14: two runs stage under the same key exactly when they read the
    same clock value and their identifiers agree on the first eight
    characters. *)
Theorem objectName_collision (env1 env2 : Env) :
  objectName env1 = objectName env2
  ↔ date_now env1 = date_now env2
    ∧ String.substring 0 8 (uuidv4 env1) = String.substring 0 8 (uuidv4 env2).
Proof.
  unfold objectName. split.
  - intros Heq. apply (inj (String.app "video_")) in Heq.
    apply split_at_underscore in Heq as [Hnow Hid];
      try apply pretty_Z_no_underscore.
    split; [apply (inj pretty), Hnow | apply append_inv_tail in Hid; exact Hid].
  - intros [-> ->]. reflexivity.
Qed.

(** ** More on materialisation *)

(** X15: when [downloadFromR2ToTemp] returns, it returns the path of
    the key under the temporary directory, the file is on disk, the key
    was and still is in the bucket, and its calls were the read of the
    object and the copy, without an [unlink]. *)
Theorem downloadFromR2ToTemp_success
    (env : Env) (objectKey p : string) (w w' : World) :
  downloadFromR2ToTemp env objectKey w = (Normal p, w') ->
  p = path_join (os_tmpdir env) objectKey
  ∧ p ∈ files w'
  ∧ objectKey ∈ bucket w
  ∧ bucket w' = bucket w
  ∧ trace w' = (trace w ++ [EGetObject objectKey; EPipeline p])%list.
Proof.
  unfold downloadFromR2ToTemp, s3_send_GetObject, pipeline, fs_unlink,
    try_catch, bind, ret, throw, emit. cbn.
  destruct (s3_get_fault env objectKey); cbn;
    [| case_bool_decide as Hkey; cbn;
       [destruct (pipeline_result env _) as [| e' [|]]; cbn |]];
    intros [= <- <-]; cbn.
  split; [reflexivity |]. split; [apply elem_of_added |].
  split; [exact Hkey |]. split; [reflexivity |].
  rewrite <- app_assoc. reflexivity.
Qed.

Lemma downloadFromR2ToTemp_success_witness :
  tempFilePath env_a = path_join (os_tmpdir env_a) (objectName env_a)
  ∧ tempFilePath env_a
      ∈ files (after (downloadFromR2ToTemp env_a (objectName env_a))
                 world_staged)
  ∧ objectName env_a ∈ bucket world_staged
  ∧ bucket (after (downloadFromR2ToTemp env_a (objectName env_a)) world_staged)
    = bucket world_staged
  ∧ trace (after (downloadFromR2ToTemp env_a (objectName env_a)) world_staged)
    = (trace world_staged
         ++ [EGetObject (objectName env_a); EPipeline (tempFilePath env_a)])%list.
Proof.
  apply (downloadFromR2ToTemp_success env_a (objectName env_a)
           (tempFilePath env_a) world_staged).
  vm_compute. reflexivity.
Defined.

(** X16: asked for a key the bucket does not hold, [downloadFromR2ToTemp]
    throws the error of the read: the fault the service reports if it
    reports one, the missing key otherwise.  It does not start the copy;
    its last call is the unlink of the temporary path, which is in
    flight when the error leaves; bucket and files are as they were, and
    once that unlink has completed without fault no file is at that
    path. *)
Theorem downloadFromR2ToTemp_missing_key
    (env : Env) (objectKey : string) (w : World) :
  objectKey ∉ bucket w ->
  fst (downloadFromR2ToTemp env objectKey w)
    = Throw (default no_such_key (s3_get_fault env objectKey))
  ∧ events (downloadFromR2ToTemp env objectKey) w
    = [EGetObject objectKey; EUnlink (path_join (os_tmpdir env) objectKey)]
  ∧ unlinks (after (downloadFromR2ToTemp env objectKey) w)
    = (unlinks w ++ [(path_join (os_tmpdir env) objectKey, DiscardError)])%list
  ∧ files (after (downloadFromR2ToTemp env objectKey) w) = files w
  ∧ bucket (after (downloadFromR2ToTemp env objectKey) w) = bucket w
  ∧ (fs_unlink_fault env (path_join (os_tmpdir env) objectKey) = None ->
     path_join (os_tmpdir env) objectKey
       ∉ files (settle env (after (downloadFromR2ToTemp env objectKey) w))).
Proof.
  intros Hkey.
  assert (Hrun : downloadFromR2ToTemp env objectKey w
            = (Throw (default no_such_key (s3_get_fault env objectKey)),
               set_unlinks
                 (unlinks w
                    ++ [(path_join (os_tmpdir env) objectKey, DiscardError)])
                 (log (EUnlink (path_join (os_tmpdir env) objectKey))
                    (log (EGetObject objectKey) w)))).
  { unfold downloadFromR2ToTemp, s3_send_GetObject, try_catch, bind, emit.
    cbn. destruct (s3_get_fault env objectKey); cbn; [reflexivity |].
    rewrite (bool_decide_false _ Hkey). reflexivity. }
  unfold events, after. rewrite Hrun.
  cbn [fst snd db oauth2Client bucket files unlinks trace log set_unlinks].
  split; [reflexivity |].
  split; [rewrite <- app_assoc; apply drop_app_length |].
  split; [reflexivity |]. split; [reflexivity |]. split; [reflexivity |].
  intros Hunlink. eapply settle_removes_last; [| exact Hunlink]. reflexivity.
Qed.

Lemma downloadFromR2ToTemp_missing_key_witness :
  fst (downloadFromR2ToTemp env_a "gone.mp4" world_a)
    = Throw (default no_such_key (s3_get_fault env_a "gone.mp4"))
  ∧ events (downloadFromR2ToTemp env_a "gone.mp4") world_a
    = [EGetObject "gone.mp4";
       EUnlink (path_join (os_tmpdir env_a) "gone.mp4")]
  ∧ unlinks (after (downloadFromR2ToTemp env_a "gone.mp4") world_a)
    = (unlinks world_a
         ++ [(path_join (os_tmpdir env_a) "gone.mp4", DiscardError)])%list
  ∧ files (after (downloadFromR2ToTemp env_a "gone.mp4") world_a)
    = files world_a
  ∧ bucket (after (downloadFromR2ToTemp env_a "gone.mp4") world_a)
    = bucket world_a
  ∧ (fs_unlink_fault env_a (path_join (os_tmpdir env_a) "gone.mp4") = None ->
     path_join (os_tmpdir env_a) "gone.mp4"
       ∉ files (settle env_a
                  (after (downloadFromR2ToTemp env_a "gone.mp4") world_a))).
Proof.
  apply (downloadFromR2ToTemp_missing_key env_a "gone.mp4" world_a).
  apply not_elem_of_empty.
Defined.

(** ** The callback route *)

Ltac callback_unfold :=
  unfold auth_callback, oauth2Client_getToken, oauth2Client_setCredentials,
    oauth2Client_verifyIdToken, db_collection, updateOne_upsert,
    console_error, res_json, res_status_json, try_catch, bind, ret, throw,
    emit.

Ltac finish_callback :=
  apply (f_equal (pair (Normal tt))); apply world_ext;
  cbn [db oauth2Client bucket files unlinks trace log set_db
         set_oauth2Client];
  try reflexivity;
  cbn [app]; rewrite <- ?app_assoc; reflexivity.

Lemma auth_callback_path (env : Env) (code : option string) (w : World) :
  ∃ evs d c,
    CallbackPath env code w evs d c ∧
    auth_callback env code w
    = (Normal tt,
       {| db := d; oauth2Client := c; bucket := bucket w; files := files w;
          unlinks := unlinks w; trace := trace w ++ evs |}).
Proof.
  callback_unfold. cbn.
  destruct (oauth_getToken env code) as [e | tokens] eqn:Hget; cbn.
  { eexists _, _, _; split; [by eapply callback_exchange_failed |].
    finish_callback. }
  destruct (oauth_verifyIdToken env (tok_id_token tokens))
    as [e | payload] eqn:Hver; cbn.
  { eexists _, _, _; split; [by eapply callback_verify_failed |].
    finish_callback. }
  destruct (db w) as [c |] eqn:Hdb; cbn.
  2:{ eexists _, _, _; split; [by eapply callback_db_unassigned |].
      finish_callback. }
  destruct (mongo_fault env) as [e |] eqn:Hm; cbn.
  { eexists _, _, _; split; [by eapply callback_upsert_rejected |].
    finish_callback. }
  eexists _, _, _; split; [by eapply callback_completed |].
  rewrite Hdb. finish_callback.
Qed.

(** The path of a callback run, with what it appended and left behind. *)
Lemma auth_callback_run (env : Env) (code : option string) (w : World) :
  CallbackPath env code w (events (auth_callback env code) w)
    (db (after (auth_callback env code) w))
    (oauth2Client (after (auth_callback env code) w))
  ∧ bucket (after (auth_callback env code) w) = bucket w
  ∧ files (after (auth_callback env code) w) = files w.
Proof.
  destruct (auth_callback_path env code w) as (evs & d & c & Hp & Heq).
  unfold events, after. rewrite Heq. cbn. rewrite drop_app_length. auto.
Qed.

Ltac callback_cases env code w :=
  let Hp := fresh "Hp" in
  let Hb := fresh "Hbucket" in
  let Hf := fresh "Hfiles" in
  let evs := fresh "evs" in
  let d := fresh "d" in
  let c := fresh "cl" in
  destruct (auth_callback_run env code w) as (Hp & Hb & Hf);
  generalize dependent (events (auth_callback env code) w); intros evs;
  generalize dependent (db (after (auth_callback env code) w)); intros d;
  generalize dependent (oauth2Client (after (auth_callback env code) w));
  intros c; intros; inversion Hp; subst; clear Hp.

(** X17: a callback run answers once: either 200 with the subject, the
    store then holding the new document under it, or 500 with the fixed
    text "Authentication failed", the store then being as before.  It
    touches neither the bucket nor the files. *)
Theorem auth_callback_answers (env : Env) (code : option string) (w : World) :
  ((∃ tokens payload (c : gmap string TokenDoc),
      responses (events (auth_callback env code) w)
        = [(200, [("message", "Authentication successful");
                  ("userId", payload_sub payload)])]
      ∧ db w = Some c
      ∧ db (after (auth_callback env code) w)
        = Some (<[payload_sub payload := callback_doc tokens payload]> c))
   ∨ (responses (events (auth_callback env code) w)
        = [(500, [("error", "Authentication failed")])]
      ∧ db (after (auth_callback env code) w) = db w))
  ∧ bucket (after (auth_callback env code) w) = bucket w
  ∧ files (after (auth_callback env code) w) = files w.
Proof.
  split; [| apply auth_callback_run].
  callback_cases env code w;
    first [ right; split; reflexivity
          | left; eexists _, _, _; repeat split; eassumption ].
Qed.

(** X18: when the code exchange and the verification succeed and the
    store accepts the write, the callback answers 200 with the subject
    and a later lookup of that subject returns the tokens of the
    exchange with the email of the id token. *)
Theorem auth_callback_registers
    (env : Env) (code : option string) (w : World)
    (c : gmap string TokenDoc) (tokens : Tokens) (payload : Payload) :
  oauth_getToken env code = inr tokens ->
  oauth_verifyIdToken env (tok_id_token tokens) = inr payload ->
  db w = Some c ->
  mongo_fault env = None ->
  responses (events (auth_callback env code) w)
    = [(200, [("message", "Authentication successful");
              ("userId", payload_sub payload)])]
  ∧ ∀ env' : Env,
      mongo_fault env' = None ->
      fst (findOne env' (payload_sub payload)
             (after (auth_callback env code) w))
      = Normal (Some {| email := payload_email payload;
                        access_token := tok_access_token tokens;
                        refresh_token := tok_refresh_token tokens;
                        token_expiry := tok_expiry_date tokens |}).
Proof.
  intros Hget Hver Hdb Hm.
  assert (Hstore : db (after (auth_callback env code) w)
                   = Some (<[payload_sub payload :=
                              callback_doc tokens payload]> c)).
  { callback_cases env code w; same_run; reflexivity. }
  split.
  - callback_cases env code w; same_run; reflexivity.
  - intros env' Hm'. unfold findOne, bind, emit. cbn.
    rewrite Hm', Hstore. cbn. rewrite lookup_insert_eq. reflexivity.
Qed.

Lemma auth_callback_registers_witness :
  responses (events (auth_callback env_callback (Some "4/0Ab")) world_a)
    = [(200, [("message", "Authentication successful");
              ("userId", payload_sub payload_sub2)])]
  ∧ ∀ env' : Env,
      mongo_fault env' = None ->
      fst (findOne env' (payload_sub payload_sub2)
             (after (auth_callback env_callback (Some "4/0Ab")) world_a))
      = Normal (Some {| email := payload_email payload_sub2;
                        access_token := tok_access_token tokens_sub2;
                        refresh_token := tok_refresh_token tokens_sub2;
                        token_expiry := tok_expiry_date tokens_sub2 |}).
Proof.
  apply (auth_callback_registers env_callback (Some "4/0Ab") world_a
           {["sub-1" := tokens_sub1]} tokens_sub2 payload_sub2);
    reflexivity.
Defined.

(** X19: a callback run changes at most the document of the subject it
    verified: the lookup of any other subject returns what it returned
    before. *)
Theorem auth_callback_keeps_other_subjects
    (env : Env) (code : option string) (w : World) (sub : string) :
  (∀ tokens payload,
     oauth_getToken env code = inr tokens ->
     oauth_verifyIdToken env (tok_id_token tokens) = inr payload ->
     payload_sub payload ≠ sub) ->
  (db (after (auth_callback env code) w)
     ≫= fun c : gmap string TokenDoc => c !! sub)
  = (db w ≫= fun c : gmap string TokenDoc => c !! sub).
Proof.
  intros Hother.
  callback_cases env code w; try reflexivity.
  match goal with H : db _ = Some _ |- _ => rewrite H end.
  cbn. apply lookup_insert_ne. eapply Hother; eassumption.
Qed.

Lemma auth_callback_keeps_other_subjects_witness :
  (db (after (auth_callback env_callback (Some "4/0Ab")) world_a)
     ≫= fun c : gmap string TokenDoc => c !! "sub-1")
  = (db world_a ≫= fun c : gmap string TokenDoc => c !! "sub-1").
Proof.
  apply (auth_callback_keeps_other_subjects env_callback (Some "4/0Ab")
           world_a "sub-1").
  intros tokens payload _ [= <-]. discriminate.
Defined.

(** X20: the process-wide OAuth client takes the tokens of every code
    that is exchanged, also when the run then fails and answers 500; it
    is left alone only when the exchange itself fails. *)
Theorem auth_callback_sets_shared_client
    (env : Env) (code : option string) (w : World) :
  oauth2Client (after (auth_callback env code) w)
  = match oauth_getToken env code with
    | inr tokens =>
        {| cred_access_token := tok_access_token tokens;
           cred_refresh_token := tok_refresh_token tokens;
           cred_expiry_date := tok_expiry_date tokens |}
    | inl _ => oauth2Client w
    end.
Proof.
  callback_cases env code w;
    match goal with
    | H : oauth_getToken _ _ = _ |- _ => rewrite H
    end; reflexivity.
Qed.

(** X21: after a callback has registered a subject, an upload request
    for that subject with a [video_url] passes the lookup with the
    registered document, and whenever that run reaches the publish call
    it publishes with the tokens of the exchange. *)
Theorem upload_after_callback
    (env env' : Env) (code : option string) (w : World)
    (c : gmap string TokenDoc) (tokens : Tokens) (payload : Payload)
    (req : UploadRequest) :
  oauth_getToken env code = inr tokens ->
  oauth_verifyIdToken env (tok_id_token tokens) = inr payload ->
  db w = Some c ->
  mongo_fault env = None ->
  query_userId req = Some (payload_sub payload) ->
  payload_sub payload ≠ "" ->
  js_truthy (video_url req) = true ->
  mongo_fault env' = None ->
  authenticated env' req (after (auth_callback env code) w)
    (callback_doc tokens payload)
  ∧ ∀ auth params,
      EVideosInsert auth params
        ∈ events (upload env' req) (after (auth_callback env code) w) ->
      auth = credentials_of tokens.
Proof.
  intros Hget Hver Hdb Hm Hq Hsub Hv Hm'.
  assert (Ha : authenticated env' req (after (auth_callback env code) w)
                 (callback_doc tokens payload)).
  { unfold authenticated. rewrite Hq. cbn.
    split; [by apply bool_decide_false |].
    split; [by apply negb_true_iff |].
    split; [exact Hm' |].
    callback_cases env code w; same_run.
    eexists. split; [reflexivity |]. apply lookup_insert_eq. }
  split; [exact Ha |].
  intros auth params Hin.
  set (w1 := after (auth_callback env code) w) in *.
  run_cases env' req w1; same_run; unfold_events;
    repeat match goal with
           | H : _ ∈ _ :: _ |- _ =>
               apply elem_of_cons in H as [H | H]; [try discriminate H |]
           | H : _ ∈ [] |- _ => apply elem_of_nil in H; destruct H
           end;
    injection Hin as -> _; reflexivity.
Qed.

Lemma upload_after_callback_witness :
  authenticated env_a req_sub2
    (after (auth_callback env_callback (Some "4/0Ab")) world_a)
    (callback_doc tokens_sub2 payload_sub2)
  ∧ ∀ auth params,
      EVideosInsert auth params
        ∈ events (upload env_a req_sub2)
            (after (auth_callback env_callback (Some "4/0Ab")) world_a) ->
      auth = credentials_of tokens_sub2.
Proof.
  apply (upload_after_callback env_callback env_a (Some "4/0Ab") world_a
           {["sub-1" := tokens_sub1]} tokens_sub2 payload_sub2 req_sub2);
    first [reflexivity | discriminate].
Defined.

